(** * The recipe store (stores/recipeStore.ts): a shallow embedding

    The store is a Zustand store wrapped in the keepsync middleware.  Every
    action is one synchronous call of [set], which replaces the listed
    fields of the current state and keeps the others.  The embedding writes
    each action as a function from the state before the call to the state
    after it.

    Two things an action reads from the platform are arguments here:
    - [uuid], the string returned by [crypto.randomUUID()];
    - [now], the time value of the [Date] built by [new Date()].
    An action reads the clock once per matching recipe inside the callback
    of [set]; the callback runs synchronously, and the embedding gives the
    whole call a single reading.

    The synchronisation middleware is outside the store's code and is not
    modelled: the theorems are about the actions and the selectors. *)

From Stdlib Require Import List String Ascii Bool ZArith Lia PrimFloat.
Import ListNotations.
Local Open Scope Z_scope.
Local Open Scope string_scope.

(** ** Data model *)

(** A JavaScript [number] is an IEEE 754 binary64 value.  The store only
    stores and copies numbers. *)
Definition number : Type := float.

(** A [Date] is represented by its time value, in milliseconds since the
    epoch ([Date.prototype.getTime]); [new Date()] always yields a valid
    one. *)
Definition Date : Type := Z.

(** The object spread [{ ...old, key: v }] for one key of a partial object:
    [None] is an absent key, which leaves the old value in place. *)
Definition spread {A : Type} (old : A) (upd : option A) : A :=
  match upd with
  | Some v => v
  | None => old
  end.

Module Ingredient.
Record t : Type := mk {
  id : string;
  name : string;
  amount : number;
  unit : string;
  preparation : option string
}.

(** [Partial<Ingredient>]; an optional key may be present with the value
    [undefined], which is [Some None]. *)
Record partial : Type := mkPartial {
  p_id : option string;
  p_name : option string;
  p_amount : option number;
  p_unit : option string;
  p_preparation : option (option string)
}.

(** [Omit<Ingredient, "id">] *)
Record data : Type := mkData {
  d_name : string;
  d_amount : number;
  d_unit : string;
  d_preparation : option string
}.

(** [{ ...ingredient, ...data }] *)
Definition merge (i : t) (p : partial) : t :=
  {| id := spread (id i) (p_id p);
     name := spread (name i) (p_name p);
     amount := spread (amount i) (p_amount p);
     unit := spread (unit i) (p_unit p);
     preparation := spread (preparation i) (p_preparation p) |}.

(** [{ id: crypto.randomUUID(), ...ingredientData }] *)
Definition create (uuid : string) (d : data) : t :=
  {| id := uuid;
     name := d_name d;
     amount := d_amount d;
     unit := d_unit d;
     preparation := d_preparation d |}.
End Ingredient.

Module Instruction.
Record t : Type := mk {
  id : string;
  stepNumber : number;
  text : string
}.

Record partial : Type := mkPartial {
  p_id : option string;
  p_stepNumber : option number;
  p_text : option string
}.

(** [Omit<Instruction, "id">] *)
Record data : Type := mkData {
  d_stepNumber : number;
  d_text : string
}.

(** [{ ...instruction, ...data }] *)
Definition merge (i : t) (p : partial) : t :=
  {| id := spread (id i) (p_id p);
     stepNumber := spread (stepNumber i) (p_stepNumber p);
     text := spread (text i) (p_text p) |}.

(** [{ id: crypto.randomUUID(), ...instructionData }] *)
Definition create (uuid : string) (d : data) : t :=
  {| id := uuid;
     stepNumber := d_stepNumber d;
     text := d_text d |}.
End Instruction.

Record Nutrition : Type := mkNutrition {
  calories : number;
  protein : number;
  carbs : number;
  fat : number;
  sugar : option number;
  sodium : option number;
  fiber : option number
}.

Inductive Difficulty : Type := easy | medium | hard.

Module Recipe.
Record t : Type := mk {
  id : string;
  title : string;
  description : string;
  ingredients : list Ingredient.t;
  instructions : list Instruction.t;
  prepTime : number;
  cookTime : number;
  servings : number;
  category : list string;
  cuisine : string;
  difficulty : Difficulty;
  nutrition : option Nutrition;
  imageUrl : option string;
  author : string;
  dateCreated : Date;
  dateModified : Date;
  notes : option string;
  isFavorite : bool
}.

(** [Partial<Recipe>]: every key of [Recipe] is optional, [id],
    [dateCreated] and [dateModified] included. *)
Record partial : Type := mkPartial {
  p_id : option string;
  p_title : option string;
  p_description : option string;
  p_ingredients : option (list Ingredient.t);
  p_instructions : option (list Instruction.t);
  p_prepTime : option number;
  p_cookTime : option number;
  p_servings : option number;
  p_category : option (list string);
  p_cuisine : option string;
  p_difficulty : option Difficulty;
  p_nutrition : option (option Nutrition);
  p_imageUrl : option (option string);
  p_author : option string;
  p_dateCreated : option Date;
  p_dateModified : option Date;
  p_notes : option (option string);
  p_isFavorite : option bool
}.

(** [Omit<Recipe, "id" | "dateCreated" | "dateModified">] *)
Record data : Type := mkData {
  d_title : string;
  d_description : string;
  d_ingredients : list Ingredient.t;
  d_instructions : list Instruction.t;
  d_prepTime : number;
  d_cookTime : number;
  d_servings : number;
  d_category : list string;
  d_cuisine : string;
  d_difficulty : Difficulty;
  d_nutrition : option Nutrition;
  d_imageUrl : option string;
  d_author : string;
  d_notes : option string;
  d_isFavorite : bool
}.

(** [{ id: crypto.randomUUID(), dateCreated: now, dateModified: now,
      ...recipeData }] *)
Definition create (uuid : string) (now : Date) (d : data) : t :=
  {| id := uuid;
     dateCreated := now;
     dateModified := now;
     title := d_title d;
     description := d_description d;
     ingredients := d_ingredients d;
     instructions := d_instructions d;
     prepTime := d_prepTime d;
     cookTime := d_cookTime d;
     servings := d_servings d;
     category := d_category d;
     cuisine := d_cuisine d;
     difficulty := d_difficulty d;
     nutrition := d_nutrition d;
     imageUrl := d_imageUrl d;
     author := d_author d;
     notes := d_notes d;
     isFavorite := d_isFavorite d |}.

(** [{ ...recipe, dateModified: d }] *)
Definition set_dateModified (r : t) (d : Date) : t :=
  mk (id r) (title r) (description r) (ingredients r) (instructions r)
     (prepTime r) (cookTime r) (servings r) (category r) (cuisine r)
     (difficulty r) (nutrition r) (imageUrl r) (author r)
     (dateCreated r) d (notes r) (isFavorite r).

(** [{ ...recipe, ingredients: l }] *)
Definition set_ingredients (r : t) (l : list Ingredient.t) : t :=
  mk (id r) (title r) (description r) l (instructions r)
     (prepTime r) (cookTime r) (servings r) (category r) (cuisine r)
     (difficulty r) (nutrition r) (imageUrl r) (author r)
     (dateCreated r) (dateModified r) (notes r) (isFavorite r).

(** [{ ...recipe, instructions: l }] *)
Definition set_instructions (r : t) (l : list Instruction.t) : t :=
  mk (id r) (title r) (description r) (ingredients r) l
     (prepTime r) (cookTime r) (servings r) (category r) (cuisine r)
     (difficulty r) (nutrition r) (imageUrl r) (author r)
     (dateCreated r) (dateModified r) (notes r) (isFavorite r).

(** [{ ...recipe, isFavorite: b }] *)
Definition set_isFavorite (r : t) (b : bool) : t :=
  mk (id r) (title r) (description r) (ingredients r) (instructions r)
     (prepTime r) (cookTime r) (servings r) (category r) (cuisine r)
     (difficulty r) (nutrition r) (imageUrl r) (author r)
     (dateCreated r) (dateModified r) (notes r) b.

(** [{ ...recipe, ...recipeData }] *)
Definition merge (r : t) (p : partial) : t :=
  {| id := spread (id r) (p_id p);
     title := spread (title r) (p_title p);
     description := spread (description r) (p_description p);
     ingredients := spread (ingredients r) (p_ingredients p);
     instructions := spread (instructions r) (p_instructions p);
     prepTime := spread (prepTime r) (p_prepTime p);
     cookTime := spread (cookTime r) (p_cookTime p);
     servings := spread (servings r) (p_servings p);
     category := spread (category r) (p_category p);
     cuisine := spread (cuisine r) (p_cuisine p);
     difficulty := spread (difficulty r) (p_difficulty p);
     nutrition := spread (nutrition r) (p_nutrition p);
     imageUrl := spread (imageUrl r) (p_imageUrl p);
     author := spread (author r) (p_author p);
     dateCreated := spread (dateCreated r) (p_dateCreated p);
     dateModified := spread (dateModified r) (p_dateModified p);
     notes := spread (notes r) (p_notes p);
     isFavorite := spread (isFavorite r) (p_isFavorite p) |}.

(** The partial object with no key. *)
Definition no_change : partial :=
  mkPartial None None None None None None None None None
            None None None None None None None None None.
End Recipe.

(** The data fields of [RecipeStore] ([RecipeData & RecipeUIState]); the
    actions are the functions below. *)
Record RecipeStore : Type := mkStore {
  recipes : list Recipe.t;
  selectedRecipeId : option string;
  isEditing : bool;
  isCreating : bool;
  searchTerm : string;
  filterCategory : option string;
  isLoading : bool
}.

Definition initialState : RecipeStore :=
  {| recipes := [];
     selectedRecipeId := None;
     isEditing := false;
     isCreating := false;
     searchTerm := "";
     filterCategory := None;
     isLoading := false |}.

(** [set((state) => ({ recipes: l }))] *)
Definition set_recipes (s : RecipeStore) (l : list Recipe.t) : RecipeStore :=
  mkStore l (selectedRecipeId s) (isEditing s) (isCreating s)
          (searchTerm s) (filterCategory s) (isLoading s).

(** ** Actions *)

(** [state.recipes.map((recipe) => recipe.id === id ? f(recipe) : recipe)],
    the shape shared by every per-recipe action. *)
Definition map_matching (id : string) (f : Recipe.t -> Recipe.t)
    (l : list Recipe.t) : list Recipe.t :=
  map (fun recipe => if Recipe.id recipe =? id then f recipe else recipe) l.

Definition createRecipe (uuid : string) (now : Date) (recipeData : Recipe.data)
    (state : RecipeStore) : RecipeStore :=
  let newRecipe := Recipe.create uuid now recipeData in
  mkStore (recipes state ++ [newRecipe]) (Some (Recipe.id newRecipe))
          (isEditing state) false
          (searchTerm state) (filterCategory state) (isLoading state).

Definition updateRecipe (now : Date) (id : string) (recipeData : Recipe.partial)
    (state : RecipeStore) : RecipeStore :=
  set_recipes state
    (map_matching id
       (fun recipe => Recipe.set_dateModified (Recipe.merge recipe recipeData) now)
       (recipes state)).

Definition deleteRecipe (id : string) (state : RecipeStore) : RecipeStore :=
  mkStore (filter (fun recipe => negb (Recipe.id recipe =? id)) (recipes state))
          (match selectedRecipeId state with
           | Some sel => if sel =? id then None else Some sel
           | None => None
           end)
          (isEditing state) (isCreating state)
          (searchTerm state) (filterCategory state) (isLoading state).

Definition addIngredient (uuid : string) (now : Date) (recipeId : string)
    (ingredientData : Ingredient.data) (state : RecipeStore) : RecipeStore :=
  let newIngredient := Ingredient.create uuid ingredientData in
  set_recipes state
    (map_matching recipeId
       (fun recipe =>
          Recipe.set_dateModified
            (Recipe.set_ingredients recipe
               (Recipe.ingredients recipe ++ [newIngredient]))
            now)
       (recipes state)).

Definition updateIngredient (now : Date) (recipeId ingredientId : string)
    (data : Ingredient.partial) (state : RecipeStore) : RecipeStore :=
  set_recipes state
    (map_matching recipeId
       (fun recipe =>
          Recipe.set_dateModified
            (Recipe.set_ingredients recipe
               (map (fun ingredient =>
                       if Ingredient.id ingredient =? ingredientId
                       then Ingredient.merge ingredient data
                       else ingredient)
                    (Recipe.ingredients recipe)))
            now)
       (recipes state)).

Definition removeIngredient (now : Date) (recipeId ingredientId : string)
    (state : RecipeStore) : RecipeStore :=
  set_recipes state
    (map_matching recipeId
       (fun recipe =>
          Recipe.set_dateModified
            (Recipe.set_ingredients recipe
               (filter (fun ingredient =>
                          negb (Ingredient.id ingredient =? ingredientId))
                       (Recipe.ingredients recipe)))
            now)
       (recipes state)).

Definition addInstruction (uuid : string) (now : Date) (recipeId : string)
    (instructionData : Instruction.data) (state : RecipeStore) : RecipeStore :=
  let newInstruction := Instruction.create uuid instructionData in
  set_recipes state
    (map_matching recipeId
       (fun recipe =>
          Recipe.set_dateModified
            (Recipe.set_instructions recipe
               (Recipe.instructions recipe ++ [newInstruction]))
            now)
       (recipes state)).

Definition updateInstruction (now : Date) (recipeId instructionId : string)
    (data : Instruction.partial) (state : RecipeStore) : RecipeStore :=
  set_recipes state
    (map_matching recipeId
       (fun recipe =>
          Recipe.set_dateModified
            (Recipe.set_instructions recipe
               (map (fun instruction =>
                       if Instruction.id instruction =? instructionId
                       then Instruction.merge instruction data
                       else instruction)
                    (Recipe.instructions recipe)))
            now)
       (recipes state)).

Definition removeInstruction (now : Date) (recipeId instructionId : string)
    (state : RecipeStore) : RecipeStore :=
  set_recipes state
    (map_matching recipeId
       (fun recipe =>
          Recipe.set_dateModified
            (Recipe.set_instructions recipe
               (filter (fun instruction =>
                          negb (Instruction.id instruction =? instructionId))
                       (Recipe.instructions recipe)))
            now)
       (recipes state)).

Definition selectRecipe (id : option string) (state : RecipeStore) : RecipeStore :=
  mkStore (recipes state) id false (isCreating state)
          (searchTerm state) (filterCategory state) (isLoading state).

Definition startEditing (state : RecipeStore) : RecipeStore :=
  mkStore (recipes state) (selectedRecipeId state) true (isCreating state)
          (searchTerm state) (filterCategory state) (isLoading state).

Definition finishEditing (state : RecipeStore) : RecipeStore :=
  mkStore (recipes state) (selectedRecipeId state) false (isCreating state)
          (searchTerm state) (filterCategory state) (isLoading state).

Definition startCreating (state : RecipeStore) : RecipeStore :=
  mkStore (recipes state) None (isEditing state) true
          (searchTerm state) (filterCategory state) (isLoading state).

Definition cancelCreating (state : RecipeStore) : RecipeStore :=
  mkStore (recipes state) (selectedRecipeId state) (isEditing state) false
          (searchTerm state) (filterCategory state) (isLoading state).

Definition setSearchTerm (term : string) (state : RecipeStore) : RecipeStore :=
  mkStore (recipes state) (selectedRecipeId state) (isEditing state)
          (isCreating state) term (filterCategory state) (isLoading state).

Definition setFilterCategory (category : option string) (state : RecipeStore)
    : RecipeStore :=
  mkStore (recipes state) (selectedRecipeId state) (isEditing state)
          (isCreating state) (searchTerm state) category (isLoading state).

Definition toggleFavorite (now : Date) (id : string) (state : RecipeStore)
    : RecipeStore :=
  set_recipes state
    (map_matching id
       (fun recipe =>
          Recipe.set_dateModified
            (Recipe.set_isFavorite recipe (negb (Recipe.isFavorite recipe)))
            now)
       (recipes state)).

(** ** Selectors *)

(** [String.prototype.includes]: [sub] occurs in [s] as a substring. *)
Fixpoint includes (s sub : string) : bool :=
  prefix sub s ||
  match s with
  | EmptyString => false
  | String _ rest => includes rest sub
  end.

(** [Array.prototype.includes] on an array of strings. *)
Definition array_includes (l : list string) (x : string) : bool :=
  existsb (fun y => y =? x) l.

(** The truth value JavaScript gives a string in a condition: the empty
    string is falsy, every other string is truthy. *)
Definition truthy (s : string) : bool :=
  match s with
  | EmptyString => false
  | String _ _ => true
  end.

(** [state.selectedRecipeId ? state.recipes.find(...) : null] *)
Definition getSelectedRecipe (state : RecipeStore) : option Recipe.t :=
  match selectedRecipeId state with
  | Some sel =>
      if truthy sel
      then find (fun r => Recipe.id r =? sel) (recipes state)
      else None
  | None => None
  end.

Section Filtering.
(** [String.prototype.toLowerCase] is the platform's; the selector is
    written over any such function. *)
Variable toLowerCase : string -> string.

Definition getFilteredRecipes (state : RecipeStore) : list Recipe.t :=
  let filtered := recipes state in
  let filtered :=
    if truthy (searchTerm state)
    then
      let term := toLowerCase (searchTerm state) in
      filter (fun recipe =>
                includes (toLowerCase (Recipe.title recipe)) term
                || includes (toLowerCase (Recipe.description recipe)) term)
             filtered
    else filtered in
  match filterCategory state with
  | Some cat =>
      if truthy cat
      then filter (fun recipe => array_includes (Recipe.category recipe) cat)
                  filtered
      else filtered
  | None => filtered
  end.

(** The search half of the filter, as the specification words it:
    the search term is empty, or its lower-cased form occurs in the
    lower-cased title or description. *)
Definition matches_search (state : RecipeStore) (r : Recipe.t) : bool :=
  (searchTerm state =? "")
  || includes (toLowerCase (Recipe.title r)) (toLowerCase (searchTerm state))
  || includes (toLowerCase (Recipe.description r))
              (toLowerCase (searchTerm state)).

(** The category half as the specification words it: the filter category
    is null, or it is a member of the recipe's category list. *)
Definition matches_category_spec (state : RecipeStore) (r : Recipe.t) : bool :=
  match filterCategory state with
  | None => true
  | Some cat => array_includes (Recipe.category r) cat
  end.

(** The category half as the selector tests it: the filter category is
    null or the empty string, or it is a member of the category list. *)
Definition matches_category (state : RecipeStore) (r : Recipe.t) : bool :=
  match filterCategory state with
  | None => true
  | Some cat => (cat =? "") || array_includes (Recipe.category r) cat
  end.
End Filtering.

(** ASCII lower-casing, the restriction of [toLowerCase] to ASCII text; it
    instantiates the selector in the examples. *)
Definition lower_ascii (c : ascii) : ascii :=
  let n := nat_of_ascii c in
  if (andb (Nat.leb 65 n) (Nat.leb n 90)) then ascii_of_nat (n + 32) else c.

Fixpoint toLowerCase_ascii (s : string) : string :=
  match s with
  | EmptyString => EmptyString
  | String c rest => String (lower_ascii c) (toLowerCase_ascii rest)
  end.

(** ** Sequences of calls *)

(** One call of a store action, with its arguments. *)
Inductive Action : Type :=
| CreateRecipe (recipeData : Recipe.data)
| UpdateRecipe (id : string) (recipeData : Recipe.partial)
| DeleteRecipe (id : string)
| AddIngredient (recipeId : string) (ingredientData : Ingredient.data)
| UpdateIngredient (recipeId ingredientId : string) (data : Ingredient.partial)
| RemoveIngredient (recipeId ingredientId : string)
| AddInstruction (recipeId : string) (instructionData : Instruction.data)
| UpdateInstruction (recipeId instructionId : string) (data : Instruction.partial)
| RemoveInstruction (recipeId instructionId : string)
| SelectRecipe (id : option string)
| StartEditing
| FinishEditing
| StartCreating
| CancelCreating
| SetSearchTerm (term : string)
| SetFilterCategory (category : option string)
| ToggleFavorite (id : string).

(** A call together with what the platform hands it: the identifier
    [crypto.randomUUID()] would return and the clock reading. *)
Record Call : Type := mkCall {
  call_uuid : string;
  call_now : Date;
  call_action : Action
}.

Definition step (c : Call) (state : RecipeStore) : RecipeStore :=
  let uuid := call_uuid c in
  let now := call_now c in
  match call_action c with
  | CreateRecipe d => createRecipe uuid now d state
  | UpdateRecipe id p => updateRecipe now id p state
  | DeleteRecipe id => deleteRecipe id state
  | AddIngredient rid d => addIngredient uuid now rid d state
  | UpdateIngredient rid iid p => updateIngredient now rid iid p state
  | RemoveIngredient rid iid => removeIngredient now rid iid state
  | AddInstruction rid d => addInstruction uuid now rid d state
  | UpdateInstruction rid iid p => updateInstruction now rid iid p state
  | RemoveInstruction rid iid => removeInstruction now rid iid state
  | SelectRecipe id => selectRecipe id state
  | StartEditing => startEditing state
  | FinishEditing => finishEditing state
  | StartCreating => startCreating state
  | CancelCreating => cancelCreating state
  | SetSearchTerm term => setSearchTerm term state
  | SetFilterCategory category => setFilterCategory category state
  | ToggleFavorite id => toggleFavorite now id state
  end.

(** The state after a sequence of calls, oldest first. *)
Fixpoint run (cs : list Call) (state : RecipeStore) : RecipeStore :=
  match cs with
  | [] => state
  | c :: rest => run rest (step c state)
  end.

(** The recipe id a per-recipe mutation is aimed at. *)
Definition target (a : Action) : option string :=
  match a with
  | UpdateRecipe id _ | ToggleFavorite id => Some id
  | AddIngredient rid _ | UpdateIngredient rid _ _ | RemoveIngredient rid _
  | AddInstruction rid _ | UpdateInstruction rid _ _ | RemoveInstruction rid _ =>
      Some rid
  | _ => None
  end.

Definition recipe_ids (state : RecipeStore) : list string :=
  map Recipe.id (recipes state).

(** The selection points at a recipe of the collection, or is null. *)
Definition selection_valid (state : RecipeStore) : Prop :=
  match selectedRecipeId state with
  | Some sel => In sel (recipe_ids state)
  | None => True
  end.

(** The clock readings of the calls never go back, starting from [t0]. *)
Fixpoint chronological (t0 : Date) (cs : list Call) : Prop :=
  match cs with
  | [] => True
  | c :: rest => t0 <= call_now c /\ chronological (call_now c) rest
  end.

(** No call of [updateRecipe] carries a [dateCreated] later than the time of
    the call. *)
Definition created_in_past (c : Call) : Prop :=
  match call_action c with
  | UpdateRecipe _ p =>
      match Recipe.p_dateCreated p with
      | Some d => d <= call_now c
      | None => True
      end
  | _ => True
  end.

(** What a call must respect for the selection to stay valid: [selectRecipe]
    is given null or the id of a recipe of the collection, and the partial of
    [updateRecipe] does not rename the recipe. *)
Definition keeps_selection (a : Action) (state : RecipeStore) : Prop :=
  match a with
  | SelectRecipe (Some id) => In id (recipe_ids state)
  | UpdateRecipe id p =>
      match Recipe.p_id p with
      | Some id' => id' = id
      | None => True
      end
  | _ => True
  end.

Fixpoint selection_safe (cs : list Call) (state : RecipeStore) : Prop :=
  match cs with
  | [] => True
  | c :: rest =>
      keeps_selection (call_action c) state /\ selection_safe rest (step c state)
  end.

(** Every recipe was modified no earlier than it was created, and no later
    than [t]. *)
Definition dates_ordered (t : Date) (state : RecipeStore) : Prop :=
  forall r, In r (recipes state) ->
    Recipe.dateCreated r <= Recipe.dateModified r /\ Recipe.dateModified r <= t.

(** ** Sample data: the two recipes of the specification's scenario *)

Definition flour : Ingredient.t :=
  Ingredient.mk "i-1" "Flour" 2%float "cups" None.

Definition apple_pie_data : Recipe.data :=
  Recipe.mkData "Apple Pie" "A classic dessert" [flour] []
                30%float 45%float 8%float ["Dessert"] "American" medium
                None None "Ann" None false.

Definition beef_stew_data : Recipe.data :=
  Recipe.mkData "Beef Stew" "Slow cooked" [] []
                20%float 120%float 4%float ["Dinner"] "French" easy
                None None "Bob" None true.

Definition apple_pie : Recipe.t := Recipe.create "r-1" 100 apple_pie_data.
Definition beef_stew : Recipe.t := Recipe.create "r-2" 200 beef_stew_data.

(** The store after the two recipes were created, at times 100 and 200. *)
Definition two_recipes : RecipeStore :=
  run [mkCall "r-1" 100 (CreateRecipe apple_pie_data);
       mkCall "r-2" 200 (CreateRecipe beef_stew_data)] initialState.

(** A partial that tries to set [dateModified] itself. *)
Definition stamp_999 : Recipe.partial :=
  Recipe.mkPartial None None None None None None None None None
                   None None None None None None (Some 999) None None.

(** A partial that moves [dateCreated] to time 500. *)
Definition created_500 : Recipe.partial :=
  Recipe.mkPartial None None None None None None None None None
                   None None None None None (Some 500) None None None.

(** A partial that renames the recipe. *)
Definition rename_to_r7 : Recipe.partial :=
  Recipe.mkPartial (Some "r-7") None None None None None None None None
                   None None None None None None None None None.

Definition rename_ingredient : Ingredient.partial :=
  Ingredient.mkPartial None (Some "Sugar") None None None.

Definition reword_instruction : Instruction.partial :=
  Instruction.mkPartial None None (Some "Stir").

(** The state in which the recipes with id [id] had their [dateModified]
    set to [now] and nothing else changed. *)
Definition refresh_dateModified (now : Date) (id : string)
    (state : RecipeStore) : RecipeStore :=
  set_recipes state
    (map_matching id (fun r => Recipe.set_dateModified r now) (recipes state)).

(** ** The views' use of the store *)

(** RecipeDetail's selector,
    [state.recipes.find((r) => r.id === recipeId)]. *)
Definition recipeById (recipeId : string) (state : RecipeStore)
    : option Recipe.t :=
  find (fun r => Recipe.id r =? recipeId) (recipes state).

(** RecipeSplash shows its clear-filters button when
    [searchTerm || filterCategory] is truthy. *)
Definition filters_active (state : RecipeStore) : bool :=
  truthy (searchTerm state)
  || match filterCategory state with
     | Some cat => truthy cat
     | None => false
     end.

(** The button's handler: [setSearchTerm(""); setFilterCategory(null)]. *)
Definition clearFilters (state : RecipeStore) : RecipeStore :=
  setFilterCategory None (setSearchTerm "" state).

(** ** Bookkeeping on sequences of calls *)

(** The number of [createRecipe] calls in a sequence. *)
Fixpoint creations (cs : list Call) : nat :=
  match cs with
  | [] => 0%nat
  | c :: rest =>
      match call_action c with
      | CreateRecipe _ => S (creations rest)
      | _ => creations rest
      end
  end.

(** No call of the sequence is a [deleteRecipe]. *)
Fixpoint no_deletion (cs : list Call) : bool :=
  match cs with
  | [] => true
  | c :: rest =>
      match call_action c with
      | DeleteRecipe _ => false
      | _ => no_deletion rest
      end
  end.

(** What a call must respect for recipe ids to stay pairwise distinct:
    [createRecipe] receives an identifier no recipe carries, and the partial
    of [updateRecipe] does not rename the recipe. *)
Definition keeps_ids_distinct (c : Call) (state : RecipeStore) : Prop :=
  match call_action c with
  | CreateRecipe _ => ~ In (call_uuid c) (recipe_ids state)
  | UpdateRecipe id p =>
      match Recipe.p_id p with
      | Some id' => id' = id
      | None => True
      end
  | _ => True
  end.

Fixpoint ids_safe (cs : list Call) (state : RecipeStore) : Prop :=
  match cs with
  | [] => True
  | c :: rest => keeps_ids_distinct c state /\ ids_safe rest (step c state)
  end.

(** The seven actions that only write selection, flags and filters. *)
Definition is_ui_action (a : Action) : bool :=
  match a with
  | SelectRecipe _ | StartEditing | FinishEditing | StartCreating
  | CancelCreating | SetSearchTerm _ | SetFilterCategory _ => true
  | _ => false
  end.

(** The actions on one recipe's favourite flag, ingredients or
    instructions: they write none of the fields the filter reads. *)
Definition is_sub_entity_action (a : Action) : bool :=
  match a with
  | ToggleFavorite _
  | AddIngredient _ _ | UpdateIngredient _ _ _ | RemoveIngredient _ _
  | AddInstruction _ _ | UpdateInstruction _ _ _ | RemoveInstruction _ _ => true
  | _ => false
  end.

(** [{ ...p1, ...p2 }] on two partial objects, key by key. *)
Definition later {A : Type} (x y : option A) : option A :=
  match y with
  | Some _ => y
  | None => x
  end.

Definition overlay (p1 p2 : Recipe.partial) : Recipe.partial :=
  Recipe.mkPartial
    (later (Recipe.p_id p1) (Recipe.p_id p2))
    (later (Recipe.p_title p1) (Recipe.p_title p2))
    (later (Recipe.p_description p1) (Recipe.p_description p2))
    (later (Recipe.p_ingredients p1) (Recipe.p_ingredients p2))
    (later (Recipe.p_instructions p1) (Recipe.p_instructions p2))
    (later (Recipe.p_prepTime p1) (Recipe.p_prepTime p2))
    (later (Recipe.p_cookTime p1) (Recipe.p_cookTime p2))
    (later (Recipe.p_servings p1) (Recipe.p_servings p2))
    (later (Recipe.p_category p1) (Recipe.p_category p2))
    (later (Recipe.p_cuisine p1) (Recipe.p_cuisine p2))
    (later (Recipe.p_difficulty p1) (Recipe.p_difficulty p2))
    (later (Recipe.p_nutrition p1) (Recipe.p_nutrition p2))
    (later (Recipe.p_imageUrl p1) (Recipe.p_imageUrl p2))
    (later (Recipe.p_author p1) (Recipe.p_author p2))
    (later (Recipe.p_dateCreated p1) (Recipe.p_dateCreated p2))
    (later (Recipe.p_dateModified p1) (Recipe.p_dateModified p2))
    (later (Recipe.p_notes p1) (Recipe.p_notes p2))
    (later (Recipe.p_isFavorite p1) (Recipe.p_isFavorite p2)).

(** ** The creation form (views/CreateRecipe.tsx) *)

(** [FormInstruction]: a row of the form, with a temporary id. *)
Module FormInstruction.
Record t : Type := mk {
  id : string;
  text : string
}.
End FormInstruction.

(** [FormIngredient]: the amount is a number or the empty string ([None]). *)
Module FormIngredient.
Record t : Type := mk {
  id : string;
  name : string;
  amount : option number;
  unit : string;
  preparation : option string
}.

(** The pairs [(field, value)] of [handleIngredientChange] whose value has
    the type of the field. *)
Inductive edit : Type :=
| SetId (value : string)
| SetName (value : string)
| SetAmount (value : option number)
| SetUnit (value : string)
| SetPreparation (value : string).

(** [{ ...ing, [field]: value }] *)
Definition apply (ing : t) (e : edit) : t :=
  match e with
  | SetId v => mk v (name ing) (amount ing) (unit ing) (preparation ing)
  | SetName v => mk (id ing) v (amount ing) (unit ing) (preparation ing)
  | SetAmount v => mk (id ing) (name ing) v (unit ing) (preparation ing)
  | SetUnit v => mk (id ing) (name ing) (amount ing) v (preparation ing)
  | SetPreparation v => mk (id ing) (name ing) (amount ing) (unit ing) (Some v)
  end.
End FormIngredient.

Definition handleAddIngredient (uuid : string)
    (ingredients : list FormIngredient.t) : list FormIngredient.t :=
  ingredients ++ [FormIngredient.mk uuid "" None "" (Some "")].

Definition handleIngredientChange (id : string) (e : FormIngredient.edit)
    (ingredients : list FormIngredient.t) : list FormIngredient.t :=
  map (fun ing => if FormIngredient.id ing =? id
                  then FormIngredient.apply ing e else ing)
      ingredients.

Definition handleRemoveIngredient (id : string)
    (ingredients : list FormIngredient.t) : list FormIngredient.t :=
  filter (fun ing => negb (FormIngredient.id ing =? id)) ingredients.

Definition handleAddInstruction (uuid : string)
    (instructions : list FormInstruction.t) : list FormInstruction.t :=
  instructions ++ [FormInstruction.mk uuid ""].

Definition handleInstructionChange (id value : string)
    (instructions : list FormInstruction.t) : list FormInstruction.t :=
  map (fun inst => if FormInstruction.id inst =? id
                   then FormInstruction.mk (FormInstruction.id inst) value
                   else inst)
      instructions.

Definition handleRemoveInstruction (id : string)
    (instructions : list FormInstruction.t) : list FormInstruction.t :=
  filter (fun inst => negb (FormInstruction.id inst =? id)) instructions.

(** The state of the form that [handleSubmit] reads. *)
Record FormState : Type := mkForm {
  f_title : string;
  f_description : string;
  f_prepTime : option number;
  f_cookTime : option number;
  f_servings : option number;
  f_category : string;
  f_cuisine : string;
  f_difficulty : Difficulty;
  f_author : string;
  f_imageUrl : string;
  f_notes : string;
  f_ingredients : list FormIngredient.t;
  f_instructions : list FormInstruction.t
}.

(** A number that JavaScript treats as false: [0], [-0] or [NaN]. *)
Definition falsy_number (x : number) : bool :=
  PrimFloat.is_zero x || PrimFloat.is_nan x.

(** [Number(v) || d] for [v : number | ""]; [Number("")] is [0]. *)
Definition number_or (v : option number) (d : number) : number :=
  let n := match v with Some n => n | None => 0%float end in
  if falsy_number n then d else n.

(** [s || d] on strings. *)
Definition string_or (s d : string) : string :=
  if truthy s then s else d.

(** [String.prototype.split(",")]. *)
Fixpoint split_comma (s : string) : list string :=
  match s with
  | EmptyString => [EmptyString]
  | String c rest =>
      if Ascii.eqb c ","%char
      then EmptyString :: split_comma rest
      else match split_comma rest with
           | w :: ws => String c w :: ws
           | [] => [String c EmptyString]
           end
  end.

(** The array index [k] as a number. *)
Fixpoint number_of_nat (k : nat) : number :=
  match k with
  | O => 0%float
  | S k' => (number_of_nat k' + 1)%float
  end.

(** [Array.prototype.map] with the index passed to the callback, counted
    from [i]. *)
Fixpoint map_from {A B : Type} (f : nat -> A -> B) (i : nat) (l : list A)
    : list B :=
  match l with
  | [] => []
  | x :: rest => f i x :: map_from f (S i) rest
  end.

(** What [handleSubmit] does in the end: it alerts and returns, or it hands
    the recipe data to [createRecipe]. *)
Inductive SubmitOutcome : Type :=
| Rejected (alert : string)
| Submitted (recipeData : Recipe.data).

Section Submit.
(** [String.prototype.trim] is the platform's. *)
Variable trim : string -> string.
(** [gen k] is what the [k]-th call of [crypto.randomUUID()] made by the
    handler returns. *)
Variable gen : nat -> string.

Definition submitIngredient (k : nat) (ing : FormIngredient.t) : Ingredient.t :=
  Ingredient.mk (gen k)
                (FormIngredient.name ing)
                (number_or (FormIngredient.amount ing) 0%float)
                (FormIngredient.unit ing)
                (option_map trim (FormIngredient.preparation ing)).

Definition submitInstruction (offset k : nat) (inst : FormInstruction.t)
    : Instruction.t :=
  Instruction.mk (gen (offset + k))
                 (number_of_nat k + 1)%float
                 (trim (FormInstruction.text inst)).

Definition handleSubmit (form : FormState) : SubmitOutcome :=
  if negb (truthy (trim (f_title form)))
  then Rejected "Please enter a recipe title."
  else if (List.length (f_ingredients form) =? 0)%nat
          || existsb (fun i => negb (truthy (trim (FormIngredient.name i))))
                     (f_ingredients form)
  then Rejected "Please add at least one ingredient with a name."
  else if (List.length (f_instructions form) =? 0)%nat
          || existsb (fun i => negb (truthy (trim (FormInstruction.text i))))
                     (f_instructions form)
  then Rejected "Please add at least one instruction step."
  else
    Submitted
      {| Recipe.d_title := trim (f_title form);
         Recipe.d_description := trim (f_description form);
         Recipe.d_prepTime := number_or (f_prepTime form) 0%float;
         Recipe.d_cookTime := number_or (f_cookTime form) 0%float;
         Recipe.d_servings := number_or (f_servings form) 1%float;
         Recipe.d_category :=
           filter truthy (map trim (split_comma (f_category form)));
         Recipe.d_cuisine := trim (f_cuisine form);
         Recipe.d_difficulty := f_difficulty form;
         Recipe.d_nutrition := None;
         Recipe.d_author := string_or (trim (f_author form)) "Unknown Chef";
         Recipe.d_imageUrl := Some (trim (f_imageUrl form));
         Recipe.d_notes := Some (trim (f_notes form));
         Recipe.d_isFavorite := false;
         Recipe.d_ingredients :=
           map_from submitIngredient 0 (f_ingredients form);
         Recipe.d_instructions :=
           map_from (submitInstruction (List.length (f_ingredients form))) 0
                    (f_instructions form) |}.

(** The form passes the three checks of [handleSubmit]. *)
Definition form_valid (form : FormState) : Prop :=
  trim (f_title form) <> ""
  /\ f_ingredients form <> []
  /\ Forall (fun i => trim (FormIngredient.name i) <> "") (f_ingredients form)
  /\ f_instructions form <> []
  /\ Forall (fun i => trim (FormInstruction.text i) <> "") (f_instructions form).

(** The store after the form was submitted: [createRecipe] runs only when
    the form was accepted, and draws the next identifier. *)
Definition submitToStore (now : Date) (form : FormState) (state : RecipeStore)
    : RecipeStore :=
  match handleSubmit form with
  | Rejected _ => state
  | Submitted recipeData =>
      createRecipe
        (gen (List.length (f_ingredients form)
              + List.length (f_instructions form)))
        now recipeData state
  end.
End Submit.

(** ASCII white space, the restriction of [trim] to ASCII text; it
    instantiates the form in the examples. *)
Definition is_space (c : ascii) : bool :=
  let n := nat_of_ascii c in
  (Nat.eqb n 32) || (Nat.leb 9 n && Nat.leb n 13).

Fixpoint trim_start (s : string) : string :=
  match s with
  | EmptyString => EmptyString
  | String c rest => if is_space c then trim_start rest else s
  end.

Fixpoint trim_end (s : string) : string :=
  match s with
  | EmptyString => EmptyString
  | String c rest =>
      match trim_end rest with
      | EmptyString => if is_space c then EmptyString else String c EmptyString
      | rest' => String c rest'
      end
  end.

Definition trim_ascii (s : string) : string := trim_end (trim_start s).

(** Identifiers "u", "+u", "++u", ... for the examples: no two are equal. *)
Fixpoint gen_sample (k : nat) : string :=
  match k with
  | O => "u"
  | S k' => String "+" (gen_sample k')
  end.

(** The form as the component first renders it. *)
Definition initialForm : FormState :=
  mkForm "" "" None None None "" "" easy "" "" "" [] [].

(** [setIngredients(l)] and [setInstructions(l)] on the form's state. *)
Definition setIngredients (l : list FormIngredient.t) (form : FormState)
    : FormState :=
  mkForm (f_title form) (f_description form) (f_prepTime form)
         (f_cookTime form) (f_servings form) (f_category form)
         (f_cuisine form) (f_difficulty form) (f_author form)
         (f_imageUrl form) (f_notes form) l (f_instructions form).

Definition setInstructions (l : list FormInstruction.t) (form : FormState)
    : FormState :=
  mkForm (f_title form) (f_description form) (f_prepTime form)
         (f_cookTime form) (f_servings form) (f_category form)
         (f_cuisine form) (f_difficulty form) (f_author form)
         (f_imageUrl form) (f_notes form) (f_ingredients form) l.

Definition sample_form : FormState :=
  mkForm "  Apple Pie " "A classic dessert" (Some 30%float) None None
         "Dessert, , Baking" "American" medium "" "" ""
         [FormIngredient.mk "t-1" "Flour" (Some 2%float) "cups" (Some " sifted ")]
         [FormInstruction.mk "t-2" "Mix"; FormInstruction.mk "t-3" " Bake "].

Definition blank_title_form : FormState :=
  mkForm "   " "" None None None "" "" easy "" "" ""
         [FormIngredient.mk "t-1" "Flour" None "" None]
         [FormInstruction.mk "t-2" "Mix"].

(** ** Basic facts about the list operations *)

Lemma store_eta (s : RecipeStore) :
  mkStore (recipes s) (selectedRecipeId s) (isEditing s) (isCreating s)
          (searchTerm s) (filterCategory s) (isLoading s) = s.
Proof. destruct s; reflexivity. Qed.

Lemma set_recipes_same (s : RecipeStore) : set_recipes s (recipes s) = s.
Proof. apply store_eta. Qed.

Lemma map_matching_length id f l :
  List.length (map_matching id f l) = List.length l.
Proof. unfold map_matching. apply length_map. Qed.

Lemma nth_error_map_matching id f l k :
  nth_error (map_matching id f l) k =
  option_map (fun r => if Recipe.id r =? id then f r else r) (nth_error l k).
Proof. unfold map_matching. apply nth_error_map. Qed.

Lemma map_matching_hit id f l k r :
  nth_error l k = Some r -> Recipe.id r = id ->
  nth_error (map_matching id f l) k = Some (f r).
Proof.
  intros Hk Hid. rewrite nth_error_map_matching, Hk. simpl.
  subst id. now rewrite String.eqb_refl.
Qed.

Lemma map_matching_miss id f l k r :
  nth_error l k = Some r -> Recipe.id r <> id ->
  nth_error (map_matching id f l) k = Some r.
Proof.
  intros Hk Hid. rewrite nth_error_map_matching, Hk. simpl.
  apply String.eqb_neq in Hid. now rewrite Hid.
Qed.

(** Closes a goal in which [E] says an element of the list carries the id
    that [Hnot] says no element carries. *)
Ltac id_is_absent Hnot E :=
  exfalso; apply Hnot; rewrite <- E; now apply in_map.

Lemma map_matching_absent id f l :
  ~ In id (map Recipe.id l) -> map_matching id f l = l.
Proof.
  induction l as [|r l IH]; simpl; intros Hnot; [reflexivity|].
  destruct (String.eqb_spec (Recipe.id r) id) as [E|_].
  - exfalso. apply Hnot. now left.
  - f_equal. apply IH. intros Hin. apply Hnot. now right.
Qed.

Lemma map_matching_compose id f g l :
  (forall r, Recipe.id r = id -> Recipe.id (f r) = id) ->
  map_matching id g (map_matching id f l) =
  map_matching id (fun r => g (f r)) l.
Proof.
  intros Hkeep. unfold map_matching. rewrite map_map.
  apply map_ext. intros r.
  destruct (String.eqb_spec (Recipe.id r) id) as [E|N].
  - apply Hkeep in E. apply String.eqb_eq in E. now rewrite E.
  - apply String.eqb_neq in N. now rewrite N.
Qed.

Lemma map_matching_ids id f l :
  (forall r, Recipe.id r = id -> Recipe.id (f r) = id) ->
  map Recipe.id (map_matching id f l) = map Recipe.id l.
Proof.
  intros Hf. unfold map_matching. rewrite map_map. apply map_ext.
  intros r. destruct (String.eqb_spec (Recipe.id r) id) as [E|_]; [|reflexivity].
  rewrite (Hf r E). now symmetry.
Qed.

Lemma filter_keeps_all {A : Type} (p : A -> bool) (l : list A) :
  (forall x, In x l -> p x = true) -> filter p l = l.
Proof.
  induction l as [|x l IH]; simpl; intros H; [reflexivity|].
  rewrite (H x (or_introl eq_refl)). f_equal. apply IH. auto.
Qed.

Lemma map_keeps_all {A : Type} (f : A -> A) (l : list A) :
  (forall x, In x l -> f x = x) -> map f l = l.
Proof.
  induction l as [|x l IH]; simpl; intros H; [reflexivity|].
  rewrite (H x (or_introl eq_refl)). f_equal. apply IH. auto.
Qed.

(** ** createRecipe *)




(** ** deleteRecipe *)

(** C7.  [deleteRecipe id] keeps exactly the recipes whose id is not [id],
    in their order; the selection becomes null when it was [id] and is
    unchanged otherwise; the flags and filters are unchanged. *)
Theorem deleteRecipe_removes_matching_and_clears_selection :
  forall (id : string) (state : RecipeStore),
    recipes (deleteRecipe id state) =
      filter (fun r => negb (Recipe.id r =? id)) (recipes state)
    /\ (forall r, In r (recipes (deleteRecipe id state)) <->
                  In r (recipes state) /\ Recipe.id r <> id)
    /\ (selectedRecipeId state = Some id ->
        selectedRecipeId (deleteRecipe id state) = None)
    /\ (selectedRecipeId state <> Some id ->
        selectedRecipeId (deleteRecipe id state) = selectedRecipeId state)
    /\ isEditing (deleteRecipe id state) = isEditing state
    /\ isCreating (deleteRecipe id state) = isCreating state
    /\ searchTerm (deleteRecipe id state) = searchTerm state
    /\ filterCategory (deleteRecipe id state) = filterCategory state
    /\ isLoading (deleteRecipe id state) = isLoading state.
Proof.
  intros id state. unfold deleteRecipe; simpl.
  split; [reflexivity|]. split; [|split; [|split]].
  - intros r. rewrite filter_In, negb_true_iff, String.eqb_neq. tauto.
  - intros ->. now rewrite String.eqb_refl.
  - intros Hsel. destruct (selectedRecipeId state) as [sel|]; [|reflexivity].
    destruct (String.eqb_spec sel id) as [->|_]; [now elim Hsel|reflexivity].
  - repeat split.
Qed.

Lemma deleteRecipe_removes_matching_and_clears_selection_witness :
  recipes (deleteRecipe "r-2" two_recipes) = [apple_pie]
  /\ selectedRecipeId (deleteRecipe "r-2" two_recipes) = None
  /\ selectedRecipeId (deleteRecipe "r-1" two_recipes) = Some "r-2".
Proof.
  destruct (deleteRecipe_removes_matching_and_clears_selection
              "r-2" two_recipes) as (Hrecipes & _ & Hclear & _).
  destruct (deleteRecipe_removes_matching_and_clears_selection
              "r-1" two_recipes) as (_ & _ & _ & Hkeep & _).
  split; [exact Hrecipes|split].
  - apply Hclear. reflexivity.
  - rewrite Hkeep; [reflexivity|discriminate].
Defined.

(** ** toggleFavorite *)

Lemma toggle_twice (r : Recipe.t) (t1 t2 : Date) :
  Recipe.set_dateModified
    (Recipe.set_isFavorite
       (Recipe.set_dateModified
          (Recipe.set_isFavorite r (negb (Recipe.isFavorite r))) t1)
       (negb (Recipe.isFavorite
                (Recipe.set_dateModified
                   (Recipe.set_isFavorite r (negb (Recipe.isFavorite r))) t1))))
    t2
  = Recipe.set_dateModified r t2.
Proof.
  destruct r; unfold Recipe.set_dateModified, Recipe.set_isFavorite; simpl.
  now rewrite negb_involutive.
Qed.

(** C8.  Toggling the favourite flag of [id] twice, at times [t1] and [t2]:
    every recipe with that id is the original recipe with only
    [dateModified] replaced (by [t2]), so its [isFavorite] is the original
    one; every other recipe and every other field of the state is the
    original one. *)
Theorem toggleFavorite_twice_restores :
  forall (t1 t2 : Date) (id : string) (state : RecipeStore),
    let state2 := toggleFavorite t2 id (toggleFavorite t1 id state) in
    state2 = set_recipes state
               (map_matching id (fun r => Recipe.set_dateModified r t2)
                             (recipes state))
    /\ List.length (recipes state2) = List.length (recipes state)
    /\ (forall k r, nth_error (recipes state) k = Some r ->
          exists r2, nth_error (recipes state2) k = Some r2
                     /\ Recipe.isFavorite r2 = Recipe.isFavorite r
                     /\ Recipe.set_dateModified r2 (Recipe.dateModified r) = r
                     /\ (Recipe.id r = id -> Recipe.dateModified r2 = t2)
                     /\ (Recipe.id r <> id -> r2 = r))
    /\ selectedRecipeId state2 = selectedRecipeId state
    /\ isEditing state2 = isEditing state
    /\ isCreating state2 = isCreating state
    /\ searchTerm state2 = searchTerm state
    /\ filterCategory state2 = filterCategory state
    /\ isLoading state2 = isLoading state.
Proof.
  intros t1 t2 id state. cbv zeta.
  assert (Heq : toggleFavorite t2 id (toggleFavorite t1 id state) =
                set_recipes state
                  (map_matching id (fun r => Recipe.set_dateModified r t2)
                                (recipes state))).
  { unfold toggleFavorite, set_recipes; simpl. f_equal.
    rewrite map_matching_compose by (intros r; destruct r; auto).
    unfold map_matching. apply map_ext. intros r.
    destruct (Recipe.id r =? id); [apply toggle_twice|reflexivity]. }
  rewrite Heq. split; [reflexivity|]. simpl.
  split; [apply map_matching_length|].
  split; [|repeat split].
  intros k r Hk. rewrite nth_error_map_matching, Hk. simpl.
  destruct (String.eqb_spec (Recipe.id r) id) as [E|N].
  - exists (Recipe.set_dateModified r t2). destruct r; simpl in *.
    repeat split; auto. intros N. now elim N.
  - exists r. destruct r; simpl in *. repeat split; auto.
    intros E. now elim N.
Qed.

Lemma toggleFavorite_twice_restores_witness :
  recipes (toggleFavorite 400 "r-1" (toggleFavorite 300 "r-1" two_recipes))
  = [Recipe.set_dateModified apple_pie 400; beef_stew].
Proof.
  rewrite (f_equal recipes
             (proj1 (toggleFavorite_twice_restores 300 400 "r-1" two_recipes))).
  reflexivity.
Defined.

(** ** updateRecipe *)

(** C9.  After [updateRecipe id partial] at time [now], every recipe that
    had the id [id] carries [dateModified = now], whatever [dateModified]
    the partial supplies: the refresh is written after the merge. *)
Theorem updateRecipe_dateModified_is_call_time :
  forall (now : Date) (id : string) (recipeData : Recipe.partial)
         (state : RecipeStore) (k : nat) (r : Recipe.t),
    nth_error (recipes state) k = Some r ->
    Recipe.id r = id ->
    exists r',
      nth_error (recipes (updateRecipe now id recipeData state)) k = Some r'
      /\ r' = Recipe.set_dateModified (Recipe.merge r recipeData) now
      /\ Recipe.dateModified r' = now.
Proof.
  intros now id recipeData state k r Hk Hid.
  exists (Recipe.set_dateModified (Recipe.merge r recipeData) now).
  split; [|split; reflexivity].
  unfold updateRecipe; simpl.
  exact (map_matching_hit id
           (fun recipe => Recipe.set_dateModified (Recipe.merge recipe recipeData) now)
           (recipes state) k r Hk Hid).
Qed.

(** ** Frame of the per-recipe mutations *)

(** C10.  A per-recipe mutation ([updateRecipe], [toggleFavorite], and the
    six ingredient and instruction actions) aimed at [id] keeps the length
    of the collection, leaves every recipe whose id is not [id] in place and
    unchanged, and leaves [selectedRecipeId], [isEditing], [isCreating],
    [searchTerm], [filterCategory] and [isLoading] unchanged. *)
Theorem per_recipe_mutation_frame :
  forall (c : Call) (id : string) (state : RecipeStore),
    target (call_action c) = Some id ->
    List.length (recipes (step c state)) = List.length (recipes state)
    /\ (forall k r, nth_error (recipes state) k = Some r ->
                    Recipe.id r <> id ->
                    nth_error (recipes (step c state)) k = Some r)
    /\ selectedRecipeId (step c state) = selectedRecipeId state
    /\ isEditing (step c state) = isEditing state
    /\ isCreating (step c state) = isCreating state
    /\ searchTerm (step c state) = searchTerm state
    /\ filterCategory (step c state) = filterCategory state
    /\ isLoading (step c state) = isLoading state.
Proof.
  intros [uuid now a] id state Htarget. unfold step; simpl in *.
  destruct a; simpl in Htarget; try discriminate;
    injection Htarget as <-;
    (split; [apply map_matching_length|]);
    (split; [intros k r Hk Hne; now apply map_matching_miss|]);
    repeat split.
Qed.

Lemma per_recipe_mutation_frame_witness :
  target (ToggleFavorite "r-1") = Some "r-1"
  /\ nth_error (recipes (toggleFavorite 300 "r-1" two_recipes)) 1 = Some beef_stew
  /\ selectedRecipeId (toggleFavorite 300 "r-1" two_recipes) = Some "r-2".
Proof.
  destruct (per_recipe_mutation_frame
              (mkCall "u-1" 300 (ToggleFavorite "r-1")) "r-1" two_recipes
              eq_refl) as (_ & Hother & Hsel & _).
  split; [reflexivity|]. split.
  - apply (Hother 1%nat beef_stew); [reflexivity|discriminate].
  - exact Hsel.
Defined.

Lemma updateRecipe_dateModified_is_call_time_witness :
  exists r',
    nth_error (recipes (updateRecipe 300 "r-1" stamp_999 two_recipes)) 0 = Some r'
    /\ r' = Recipe.set_dateModified (Recipe.merge apple_pie stamp_999) 300
    /\ Recipe.dateModified r' = 300.
Proof.
  exact (updateRecipe_dateModified_is_call_time
           300 "r-1" stamp_999 two_recipes 0%nat apple_pie eq_refl eq_refl).
Defined.

(** ** Ingredient or instruction id not found in a recipe that is found *)

Lemma ingredient_map_absent iid p (l : list Ingredient.t) :
  ~ In iid (map Ingredient.id l) ->
  map (fun i => if Ingredient.id i =? iid then Ingredient.merge i p else i) l = l.
Proof.
  intros Hnot. apply map_keeps_all. intros i Hin.
  destruct (String.eqb_spec (Ingredient.id i) iid) as [E|_]; [|reflexivity].
  id_is_absent Hnot E.
Qed.

Lemma ingredient_filter_absent iid (l : list Ingredient.t) :
  ~ In iid (map Ingredient.id l) ->
  filter (fun i => negb (Ingredient.id i =? iid)) l = l.
Proof.
  intros Hnot. apply filter_keeps_all. intros i Hin.
  destruct (String.eqb_spec (Ingredient.id i) iid) as [E|_]; [|reflexivity].
  id_is_absent Hnot E.
Qed.

Lemma instruction_map_absent iid p (l : list Instruction.t) :
  ~ In iid (map Instruction.id l) ->
  map (fun i => if Instruction.id i =? iid then Instruction.merge i p else i) l = l.
Proof.
  intros Hnot. apply map_keeps_all. intros i Hin.
  destruct (String.eqb_spec (Instruction.id i) iid) as [E|_]; [|reflexivity].
  id_is_absent Hnot E.
Qed.

Lemma instruction_filter_absent iid (l : list Instruction.t) :
  ~ In iid (map Instruction.id l) ->
  filter (fun i => negb (Instruction.id i =? iid)) l = l.
Proof.
  intros Hnot. apply filter_keeps_all. intros i Hin.
  destruct (String.eqb_spec (Instruction.id i) iid) as [E|_]; [|reflexivity].
  id_is_absent Hnot E.
Qed.

Lemma set_ingredients_same (r : Recipe.t) :
  Recipe.set_ingredients r (Recipe.ingredients r) = r.
Proof. destruct r; reflexivity. Qed.

Lemma set_instructions_same (r : Recipe.t) :
  Recipe.set_instructions r (Recipe.instructions r) = r.
Proof. destruct r; reflexivity. Qed.

(** Two per-recipe maps agree when their functions agree on the recipes of
    the list that carry the id. *)
Lemma map_matching_ext_in id f g l :
  (forall r, In r l -> Recipe.id r = id -> f r = g r) ->
  map_matching id f l = map_matching id g l.
Proof.
  intros H. unfold map_matching. apply map_ext_in. intros r Hin.
  destruct (String.eqb_spec (Recipe.id r) id) as [E|_]; auto.
Qed.

(** C2, as the store behaves.  When no ingredient (resp. instruction) of
    the recipes with id [recipeId] has the id [subId], each of
    [updateIngredient], [removeIngredient] (resp. [updateInstruction],
    [removeInstruction]) leaves the ingredient and instruction lists and
    every other field as they were, but still sets [dateModified] of those
    recipes to the time of the call. *)
Theorem sub_entity_not_found_only_refreshes_dateModified :
  forall (now : Date) (recipeId subId : string)
         (pi : Ingredient.partial) (pn : Instruction.partial)
         (state : RecipeStore),
    ((forall r, In r (recipes state) -> Recipe.id r = recipeId ->
                ~ In subId (map Ingredient.id (Recipe.ingredients r))) ->
     updateIngredient now recipeId subId pi state
       = refresh_dateModified now recipeId state
     /\ removeIngredient now recipeId subId state
       = refresh_dateModified now recipeId state)
    /\
    ((forall r, In r (recipes state) -> Recipe.id r = recipeId ->
                ~ In subId (map Instruction.id (Recipe.instructions r))) ->
     updateInstruction now recipeId subId pn state
       = refresh_dateModified now recipeId state
     /\ removeInstruction now recipeId subId state
       = refresh_dateModified now recipeId state).
Proof.
  intros now recipeId subId pi pn state.
  unfold updateIngredient, removeIngredient, updateInstruction,
    removeInstruction, refresh_dateModified.
  split; intros Habsent; split; f_equal;
    apply map_matching_ext_in; intros r Hin Hid;
    specialize (Habsent r Hin Hid).
  - now rewrite ingredient_map_absent, set_ingredients_same.
  - now rewrite ingredient_filter_absent, set_ingredients_same.
  - now rewrite instruction_map_absent, set_instructions_same.
  - now rewrite instruction_filter_absent, set_instructions_same.
Qed.

Lemma sub_entity_not_found_only_refreshes_dateModified_witness :
  recipes (updateIngredient 300 "r-1" "i-9" rename_ingredient two_recipes)
    = [Recipe.set_dateModified apple_pie 300; beef_stew]
  /\ recipes (removeInstruction 300 "r-1" "i-9" two_recipes)
    = [Recipe.set_dateModified apple_pie 300; beef_stew].
Proof.
  destruct (sub_entity_not_found_only_refreshes_dateModified
              300 "r-1" "i-9" rename_ingredient reword_instruction two_recipes)
    as [Hing Hins].
  split.
  - rewrite (proj1 (Hing ltac:(simpl; intros r [<-|[<-|[]]] E;
                               [simpl; intros [H|[]]; discriminate H
                               |discriminate E]))).
    reflexivity.
  - rewrite (proj2 (Hins ltac:(simpl; intros r [<-|[<-|[]]] E;
                               [simpl; tauto|discriminate E]))).
    reflexivity.
Defined.

(** C2 as stated fails: the recipe "r-1" is in the collection and has no
    ingredient or instruction with id "i-9", yet each of the four actions,
    called at time 300, changes the state (the recipe's [dateModified]
    moves from 100 to 300). *)
Lemma sub_entity_not_found_is_not_a_noop :
  In apple_pie (recipes two_recipes)
  /\ ~ In "i-9" (map Ingredient.id (Recipe.ingredients apple_pie))
  /\ ~ In "i-9" (map Instruction.id (Recipe.instructions apple_pie))
  /\ updateIngredient 300 "r-1" "i-9" rename_ingredient two_recipes <> two_recipes
  /\ removeIngredient 300 "r-1" "i-9" two_recipes <> two_recipes
  /\ updateInstruction 300 "r-1" "i-9" reword_instruction two_recipes <> two_recipes
  /\ removeInstruction 300 "r-1" "i-9" two_recipes <> two_recipes.
Proof.
  split; [now left|].
  split; [simpl; intros [H|[]]; discriminate H|].
  split; [simpl; tauto|].
  repeat split; intros H;
    apply (f_equal (fun s => map Recipe.dateModified (recipes s))) in H;
    vm_compute in H; discriminate H.
Qed.

(** ** Recipe id not found *)

Lemma per_recipe_absent id f (state : RecipeStore) :
  ~ In id (recipe_ids state) ->
  set_recipes state (map_matching id f (recipes state)) = state.
Proof.
  intros Hnot. rewrite map_matching_absent by exact Hnot.
  apply set_recipes_same.
Qed.

Lemma delete_absent_recipes id (l : list Recipe.t) :
  ~ In id (map Recipe.id l) ->
  filter (fun r => negb (Recipe.id r =? id)) l = l.
Proof.
  intros Hnot. apply filter_keeps_all. intros r Hin.
  destruct (String.eqb_spec (Recipe.id r) id) as [E|_]; [|reflexivity].
  id_is_absent Hnot E.
Qed.

(** C5, as the store behaves.  When no recipe of the collection has the id
    [id], each of [updateRecipe], [toggleFavorite] and the six ingredient and
    instruction actions called with [id] returns the state it was given.
    [deleteRecipe id] leaves the collection and the flags and filters
    unchanged; it leaves the selection unchanged too unless the selection is
    that same (absent) id, and then it sets the selection to null.  Every
    action is a total function of the state: a call always yields a state. *)
Theorem recipe_id_not_found :
  forall (uuid : string) (now : Date) (id : string) (state : RecipeStore),
    ~ In id (recipe_ids state) ->
    (forall p, updateRecipe now id p state = state)
    /\ toggleFavorite now id state = state
    /\ (forall d, addIngredient uuid now id d state = state)
    /\ (forall iid p, updateIngredient now id iid p state = state)
    /\ (forall iid, removeIngredient now id iid state = state)
    /\ (forall d, addInstruction uuid now id d state = state)
    /\ (forall iid p, updateInstruction now id iid p state = state)
    /\ (forall iid, removeInstruction now id iid state = state)
    /\ recipes (deleteRecipe id state) = recipes state
    /\ isEditing (deleteRecipe id state) = isEditing state
    /\ isCreating (deleteRecipe id state) = isCreating state
    /\ searchTerm (deleteRecipe id state) = searchTerm state
    /\ filterCategory (deleteRecipe id state) = filterCategory state
    /\ isLoading (deleteRecipe id state) = isLoading state
    /\ (selectedRecipeId state <> Some id -> deleteRecipe id state = state)
    /\ (selectedRecipeId state = Some id ->
        selectedRecipeId (deleteRecipe id state) = None)
    /\ (forall c, exists state', step c state = state').
Proof.
  intros uuid now id state Hnot.
  unfold updateRecipe, toggleFavorite, addIngredient, updateIngredient,
    removeIngredient, addInstruction, updateInstruction, removeInstruction.
  repeat (split; [intros; now apply per_recipe_absent|]).
  unfold deleteRecipe; simpl.
  rewrite delete_absent_recipes by exact Hnot.
  repeat (split; [reflexivity|]).
  split; [|split].
  - intros Hsel. destruct state as [rs sel e c t f l]; simpl in *.
    destruct sel as [sel|]; [|reflexivity].
    destruct (String.eqb_spec sel id) as [->|_]; [now elim Hsel|reflexivity].
  - intros ->. now rewrite String.eqb_refl.
  - intros c. now eexists.
Qed.

Lemma recipe_id_not_found_witness :
  ~ In "r-9" (recipe_ids two_recipes)
  /\ updateRecipe 300 "r-9" stamp_999 two_recipes = two_recipes
  /\ deleteRecipe "r-9" two_recipes = two_recipes.
Proof.
  assert (Hnot : ~ In "r-9" (recipe_ids two_recipes)).
  { simpl. intros [H|[H|[]]]; discriminate H. }
  destruct (recipe_id_not_found "u-1" 300 "r-9" two_recipes Hnot)
    as (Hupd & _ & _ & _ & _ & _ & _ & _ & _ & _ & _ & _ & _ & _ & Hdel & _).
  split; [exact Hnot|]. split.
  - apply Hupd.
  - apply Hdel. discriminate.
Defined.

(** C5 as stated fails for [deleteRecipe]: after [selectRecipe "r-9"], an id
    no recipe has, [deleteRecipe "r-9"] changes the state, because it
    resets the selection. *)
Lemma deleteRecipe_absent_id_clears_stale_selection :
  ~ In "r-9" (recipe_ids (selectRecipe (Some "r-9") two_recipes))
  /\ deleteRecipe "r-9" (selectRecipe (Some "r-9") two_recipes)
     <> selectRecipe (Some "r-9") two_recipes.
Proof.
  split.
  - simpl. intros [H|[H|[]]]; discriminate H.
  - intros H. apply (f_equal selectedRecipeId) in H. discriminate H.
Qed.

(** ** Selection *)

Lemma delete_ids id x (l : list Recipe.t) :
  In x (map Recipe.id l) -> x <> id ->
  In x (map Recipe.id (filter (fun r => negb (Recipe.id r =? id)) l)).
Proof.
  intros Hin Hne. apply in_map_iff in Hin as (r & <- & Hr).
  apply in_map. apply filter_In. split; [exact Hr|].
  apply negb_true_iff. now apply String.eqb_neq.
Qed.

Lemma per_recipe_selection id f (state : RecipeStore) :
  (forall r, Recipe.id r = id -> Recipe.id (f r) = id) ->
  selection_valid state ->
  selection_valid (set_recipes state (map_matching id f (recipes state))).
Proof.
  intros Hf. unfold selection_valid, recipe_ids; simpl.
  now rewrite map_matching_ids.
Qed.

Lemma step_keeps_selection (c : Call) (state : RecipeStore) :
  selection_valid state ->
  keeps_selection (call_action c) state ->
  selection_valid (step c state).
Proof.
  destruct c as [uuid now a]. unfold step; simpl.
  intros Hvalid Hkeep.
  destruct a; simpl in Hkeep;
    try solve [apply per_recipe_selection;
               [intros r; destruct r; simpl; auto | exact Hvalid]];
    try exact Hvalid.
  - (* createRecipe *)
    unfold selection_valid, recipe_ids; simpl.
    rewrite map_app. apply in_or_app. right. now left.
  - (* updateRecipe *)
    apply per_recipe_selection; [|exact Hvalid].
    intros r Hr. destruct r; simpl in *.
    destruct (Recipe.p_id recipeData); simpl; congruence.
  - (* deleteRecipe *)
    unfold selection_valid, recipe_ids in *; simpl.
    destruct (selectedRecipeId state) as [sel|]; [|exact I].
    destruct (String.eqb_spec sel id) as [_|Hne]; [exact I|].
    now apply delete_ids.
  - (* selectRecipe *)
    unfold selection_valid; simpl. destruct id; [exact Hkeep|exact I].
  - (* startCreating *)
    exact I.
Qed.

Lemma run_keeps_selection (cs : list Call) :
  forall state,
    selection_valid state -> selection_safe cs state ->
    selection_valid (run cs state).
Proof.
  induction cs as [|c cs IH]; simpl; intros state Hvalid Hsafe.
  - exact Hvalid.
  - destruct Hsafe as [Hc Hrest].
    apply IH; [now apply step_keeps_selection|exact Hrest].
Qed.

(** C4, as the store behaves.  Starting from the initial state, in every
    state reached by calls in which [selectRecipe] is given null or the id of
    a recipe then in the collection, and no [updateRecipe] partial changes
    the recipe's id, [selectedRecipeId] is null or the id of a recipe of the
    collection. *)
Theorem selection_never_dangling_under_valid_calls :
  forall cs : list Call,
    selection_safe cs initialState ->
    selection_valid (run cs initialState).
Proof.
  intros cs Hsafe. apply run_keeps_selection; [exact I|exact Hsafe].
Qed.

(** C4 as stated fails: [selectRecipe] stores any id it is given. *)
Lemma selectRecipe_can_dangle :
  ~ selection_valid
      (run [mkCall "u-1" 100 (SelectRecipe (Some "r-9"))] initialState).
Proof. simpl. intros []. Qed.

(** A second way to a dangling selection: renaming the selected recipe. *)
Lemma updateRecipe_rename_can_dangle :
  ~ selection_valid
      (run [mkCall "r-1" 100 (CreateRecipe apple_pie_data);
            mkCall "u-2" 200 (UpdateRecipe "r-1" rename_to_r7)] initialState).
Proof. simpl. intros [H|[]]. discriminate H. Qed.

(** The selector is written for that case: on a stale id it finds nothing. *)
Lemma getSelectedRecipe_stale_is_absent :
  getSelectedRecipe (selectRecipe (Some "r-9") two_recipes) = None
  /\ getSelectedRecipe (selectRecipe (Some "r-2") two_recipes) = Some beef_stew.
Proof. split; reflexivity. Qed.

Lemma selection_never_dangling_under_valid_calls_witness :
  selection_valid
    (run [mkCall "r-1" 100 (CreateRecipe apple_pie_data);
          mkCall "r-2" 200 (CreateRecipe beef_stew_data);
          mkCall "u-3" 300 (SelectRecipe (Some "r-1"));
          mkCall "u-4" 400 (UpdateRecipe "r-1" stamp_999);
          mkCall "u-5" 500 (DeleteRecipe "r-1")] initialState).
Proof.
  apply selection_never_dangling_under_valid_calls.
  simpl. repeat split. now left.
Defined.

(** ** Timestamps *)

Lemma per_recipe_dates (t now : Date) id f (state : RecipeStore) :
  t <= now ->
  (forall r, Recipe.dateCreated r <= Recipe.dateModified r <= t ->
             Recipe.dateCreated (f r) <= Recipe.dateModified (f r) <= now) ->
  dates_ordered t state ->
  dates_ordered now (set_recipes state (map_matching id f (recipes state))).
Proof.
  intros Hle Hf Hord r' Hin. simpl in Hin. unfold map_matching in Hin.
  apply in_map_iff in Hin as (r & <- & Hr). specialize (Hord r Hr).
  destruct (Recipe.id r =? id); [now apply Hf|lia].
Qed.

Lemma dates_ordered_later (t now : Date) (state state' : RecipeStore) :
  t <= now ->
  (forall r, In r (recipes state') -> In r (recipes state)) ->
  dates_ordered t state -> dates_ordered now state'.
Proof.
  intros Hle Hsub Hord r Hin. specialize (Hord r (Hsub r Hin)). lia.
Qed.

Lemma step_keeps_dates (t : Date) (c : Call) (state : RecipeStore) :
  t <= call_now c ->
  created_in_past c ->
  dates_ordered t state ->
  dates_ordered (call_now c) (step c state).
Proof.
  destruct c as [uuid now a]. unfold created_in_past, step; simpl.
  intros Hle Hpast Hord.
  destruct a;
    try solve [apply (per_recipe_dates t); auto;
               intros r; destruct r; simpl; lia];
    try solve [apply (dates_ordered_later t now state); auto].
  - (* createRecipe *)
    intros r Hin. simpl in Hin. apply in_app_or in Hin as [Hold|[<-|[]]].
    + specialize (Hord r Hold). lia.
    + simpl. lia.
  - (* updateRecipe *)
    apply (per_recipe_dates t); auto.
    intros r Hr. destruct r; simpl in *.
    destruct (Recipe.p_dateCreated recipeData); simpl; lia.
  - (* deleteRecipe *)
    apply (dates_ordered_later t now state); auto.
    simpl. intros r Hin. now apply filter_In in Hin.
Qed.

Lemma run_keeps_dates (cs : list Call) :
  forall (t : Date) (state : RecipeStore),
    chronological t cs -> Forall created_in_past cs ->
    dates_ordered t state ->
    exists t', dates_ordered t' (run cs state).
Proof.
  induction cs as [|c cs IH]; simpl; intros t state Hchron Hpast Hord.
  - now exists t.
  - destruct Hchron as [Hle Hrest]. inversion Hpast as [|? ? Hc Hcs]; subst.
    apply (IH (call_now c)); auto. now apply (step_keeps_dates t).
Qed.

Lemma step_refreshes_target (c : Call) (id : string) (state : RecipeStore)
    (k : nat) (r : Recipe.t) :
  target (call_action c) = Some id ->
  nth_error (recipes state) k = Some r ->
  Recipe.id r = id ->
  exists r', nth_error (recipes (step c state)) k = Some r'
             /\ Recipe.dateModified r' = call_now c.
Proof.
  destruct c as [uuid now a]. unfold step; simpl. intros Ht Hk Hid.
  destruct a; simpl in Ht; try discriminate; injection Ht as Ht;
    rewrite <- Ht in Hid; simpl;
    rewrite (map_matching_hit _ _ _ _ _ Hk Hid);
    eexists; split; reflexivity.
Qed.

(** C3, as the store behaves.  (1) Starting from the initial state, after
    any sequence of calls whose clock readings never go back and in which no
    [updateRecipe] partial carries a [dateCreated] later than the time of its
    call, every recipe has [dateModified >= dateCreated].  (2) In any state,
    each of [updateRecipe], [toggleFavorite] and the six ingredient and
    instruction actions sets [dateModified] of the recipes with the given id
    to the time of the call. *)
Theorem dates_ordered_and_refreshed :
  (forall (t0 : Date) (cs : list Call),
      chronological t0 cs ->
      Forall created_in_past cs ->
      forall r, In r (recipes (run cs initialState)) ->
                Recipe.dateModified r >= Recipe.dateCreated r)
  /\
  (forall (c : Call) (id : string) (state : RecipeStore) (k : nat) (r : Recipe.t),
      target (call_action c) = Some id ->
      nth_error (recipes state) k = Some r ->
      Recipe.id r = id ->
      exists r', nth_error (recipes (step c state)) k = Some r'
                 /\ Recipe.dateModified r' = call_now c).
Proof.
  split.
  - intros t0 cs Hchron Hpast r Hin.
    destruct (run_keeps_dates cs t0 initialState Hchron Hpast) as [t' Hord].
    + intros r0 [].
    + specialize (Hord r Hin). lia.
  - intros c id state k r. apply step_refreshes_target.
Qed.

Lemma dates_ordered_and_refreshed_witness :
  (forall r,
      In r (recipes (run [mkCall "r-1" 100 (CreateRecipe apple_pie_data);
                          mkCall "u-2" 200 (ToggleFavorite "r-1");
                          mkCall "u-3" 300 (UpdateRecipe "r-1" stamp_999)]
                         initialState)) ->
      Recipe.dateModified r >= Recipe.dateCreated r)
  /\ exists r',
       nth_error (recipes (toggleFavorite 300 "r-1" two_recipes)) 0 = Some r'
       /\ Recipe.dateModified r' = 300.
Proof.
  split.
  - apply (proj1 dates_ordered_and_refreshed 0).
    + simpl. lia.
    + repeat constructor.
  - exact (proj2 dates_ordered_and_refreshed
             (mkCall "u-1" 300 (ToggleFavorite "r-1")) "r-1" two_recipes
             0%nat apple_pie eq_refl eq_refl eq_refl).
Defined.

(** C3 as stated fails: [updateRecipe] merges a [dateCreated] supplied by
    the caller.  With clock readings 100 and then 200, the recipe created at
    100 and then updated with [dateCreated = 500] has [dateModified = 200],
    which is earlier than its [dateCreated]. *)
Lemma dateCreated_can_pass_dateModified :
  chronological 0 [mkCall "r-1" 100 (CreateRecipe apple_pie_data);
                   mkCall "u-2" 200 (UpdateRecipe "r-1" created_500)]
  /\ exists r,
       In r (recipes (run [mkCall "r-1" 100 (CreateRecipe apple_pie_data);
                           mkCall "u-2" 200 (UpdateRecipe "r-1" created_500)]
                          initialState))
       /\ ~ Recipe.dateModified r >= Recipe.dateCreated r.
Proof.
  split; [simpl; lia|].
  eexists. split; [simpl; left; reflexivity|]. simpl. lia.
Qed.

(** The clock hypothesis is needed as well: a reading that goes back (100,
    then 50) puts [dateModified] before [dateCreated]. *)
Lemma clock_going_back_breaks_order :
  exists r,
    In r (recipes (run [mkCall "r-1" 100 (CreateRecipe apple_pie_data);
                        mkCall "u-2" 50 (ToggleFavorite "r-1")]
                       initialState))
    /\ ~ Recipe.dateModified r >= Recipe.dateCreated r.
Proof.
  eexists. split; [simpl; left; reflexivity|]. simpl. lia.
Qed.

(** ** getFilteredRecipes *)

Lemma truthy_not_empty (s : string) : truthy s = negb (s =? "").
Proof. destruct s; reflexivity. Qed.

Lemma filter_twice {A : Type} (p q : A -> bool) (l : list A) :
  filter q (filter p l) = filter (fun x => p x && q x) l.
Proof.
  induction l as [|x l IH]; simpl; [reflexivity|].
  destruct (p x); simpl; [destruct (q x)|]; now rewrite IH.
Qed.

Lemma filter_all {A : Type} (l : list A) : filter (fun _ => true) l = l.
Proof. apply filter_keeps_all. reflexivity. Qed.

Section FilteringFacts.
Variable toLowerCase : string -> string.

(** The search stage of the selector is the filter by [matches_search]. *)
Lemma search_stage (state : RecipeStore) :
  (if truthy (searchTerm state)
   then filter (fun recipe =>
                  includes (toLowerCase (Recipe.title recipe))
                           (toLowerCase (searchTerm state))
                  || includes (toLowerCase (Recipe.description recipe))
                              (toLowerCase (searchTerm state)))
               (recipes state)
   else recipes state)
  = filter (matches_search toLowerCase state) (recipes state).
Proof.
  unfold matches_search. rewrite truthy_not_empty.
  destruct (searchTerm state =? ""); simpl.
  - now rewrite filter_all.
  - reflexivity.
Qed.

(** The category stage is the filter by [matches_category]. *)
Lemma category_stage (state : RecipeStore) (l : list Recipe.t) :
  match filterCategory state with
  | Some cat =>
      if truthy cat
      then filter (fun recipe => array_includes (Recipe.category recipe) cat) l
      else l
  | None => l
  end
  = filter (matches_category state) l.
Proof.
  unfold matches_category.
  destruct (filterCategory state) as [cat|]; [|now rewrite filter_all].
  rewrite truthy_not_empty.
  destruct (cat =? ""); simpl; [now rewrite filter_all|reflexivity].
Qed.

Lemma getFilteredRecipes_filter (state : RecipeStore) :
  getFilteredRecipes toLowerCase state =
  filter (fun r => matches_search toLowerCase state r
                   && matches_category state r)
         (recipes state).
Proof.
  unfold getFilteredRecipes. cbv zeta.
  rewrite search_stage, category_stage. apply filter_twice.
Qed.
End FilteringFacts.

(** C6, as the selector behaves.  For every lower-casing function and every
    state, [getFilteredRecipes] returns, in the order of the collection,
    exactly the recipes [r] such that (searchTerm is empty, or the
    lower-cased searchTerm is a substring of r's lower-cased title or
    description) and (filterCategory is null or the empty string, or
    filterCategory is a member of r's category list).  With an empty
    searchTerm and a null filterCategory it returns the whole collection. *)
Theorem getFilteredRecipes_is_conjunctive_filter :
  forall (toLowerCase : string -> string) (state : RecipeStore),
    getFilteredRecipes toLowerCase state =
      filter (fun r => matches_search toLowerCase state r
                       && matches_category state r)
             (recipes state)
    /\ (forall r, In r (getFilteredRecipes toLowerCase state) <->
                  In r (recipes state)
                  /\ matches_search toLowerCase state r = true
                  /\ matches_category state r = true)
    /\ (searchTerm state = "" -> filterCategory state = None ->
        getFilteredRecipes toLowerCase state = recipes state).
Proof.
  intros lower state. split; [apply getFilteredRecipes_filter|]. split.
  - intros r. rewrite getFilteredRecipes_filter, filter_In, andb_true_iff.
    reflexivity.
  - intros Hterm Hcat. unfold getFilteredRecipes. now rewrite Hterm, Hcat.
Qed.

(** The scenario of the specification: "pie" selects Apple Pie, the category
    "Dinner" selects Beef Stew, both together select nothing, and no filter
    at all returns the collection. *)
Lemma getFilteredRecipes_is_conjunctive_filter_witness :
  getFilteredRecipes toLowerCase_ascii (setSearchTerm "pie" two_recipes)
    = [apple_pie]
  /\ getFilteredRecipes toLowerCase_ascii
       (setFilterCategory (Some "Dinner") two_recipes) = [beef_stew]
  /\ getFilteredRecipes toLowerCase_ascii
       (setFilterCategory (Some "Dinner") (setSearchTerm "pie" two_recipes)) = []
  /\ getFilteredRecipes toLowerCase_ascii two_recipes = [apple_pie; beef_stew].
Proof.
  split; [|split; [|split]].
  - rewrite (proj1 (getFilteredRecipes_is_conjunctive_filter
                      toLowerCase_ascii (setSearchTerm "pie" two_recipes))).
    reflexivity.
  - rewrite (proj1 (getFilteredRecipes_is_conjunctive_filter
                      toLowerCase_ascii
                      (setFilterCategory (Some "Dinner") two_recipes))).
    reflexivity.
  - rewrite (proj1 (getFilteredRecipes_is_conjunctive_filter
                      toLowerCase_ascii
                      (setFilterCategory (Some "Dinner")
                         (setSearchTerm "pie" two_recipes)))).
    reflexivity.
  - apply (getFilteredRecipes_is_conjunctive_filter toLowerCase_ascii
             two_recipes); reflexivity.
Defined.

(** C6 as stated fails when [filterCategory] is the empty string: it is not
    null and is a member of no category list here, so the stated predicate
    selects nothing, while the selector skips the category filter and
    returns both recipes. *)
Lemma empty_filterCategory_is_ignored :
  filterCategory (setFilterCategory (Some "") two_recipes) = Some ""
  /\ getFilteredRecipes toLowerCase_ascii (setFilterCategory (Some "") two_recipes)
     = [apple_pie; beef_stew]
  /\ filter (fun r =>
               matches_search toLowerCase_ascii
                 (setFilterCategory (Some "") two_recipes) r
               && matches_category_spec
                    (setFilterCategory (Some "") two_recipes) r)
            (recipes (setFilterCategory (Some "") two_recipes))
     = []
  /\ getFilteredRecipes toLowerCase_ascii (setFilterCategory (Some "") two_recipes)
     <> filter (fun r =>
                  matches_search toLowerCase_ascii
                    (setFilterCategory (Some "") two_recipes) r
                  && matches_category_spec
                       (setFilterCategory (Some "") two_recipes) r)
               (recipes (setFilterCategory (Some "") two_recipes)).
Proof.
  split; [reflexivity|]. split; [reflexivity|]. split; [reflexivity|].
  intros H. apply (f_equal (@List.length Recipe.t)) in H.
  vm_compute in H. discriminate H.
Qed.

(** ** Looking a recipe up by id *)

Lemma find_id_none id (l : list Recipe.t) :
  find (fun r => Recipe.id r =? id) l = None <-> ~ In id (map Recipe.id l).
Proof.
  induction l as [|r l IH]; simpl; [tauto|].
  destruct (String.eqb_spec (Recipe.id r) id) as [E|N].
  - split; [discriminate|]. intros H. elim H. now left.
  - rewrite IH. tauto.
Qed.

Lemma find_id_first id (l : list Recipe.t) (r : Recipe.t) :
  find (fun r => Recipe.id r =? id) l = Some r ->
  Recipe.id r = id
  /\ exists before after,
       l = (before ++ r :: after)%list /\ ~ In id (map Recipe.id before).
Proof.
  induction l as [|x l IH]; simpl; [discriminate|].
  destruct (String.eqb_spec (Recipe.id x) id) as [E|N].
  - intros [= <-]. split; [exact E|]. exists [], l. simpl. tauto.
  - intros H. destruct (IH H) as (Hid & before & after & -> & Hnot).
    split; [exact Hid|]. exists (x :: before), after. simpl. split; [reflexivity|].
    intros [Hx|Hin]; [now apply N|now apply Hnot].
Qed.

Lemma find_id_app_fresh id (l : list Recipe.t) (r : Recipe.t) :
  ~ In id (map Recipe.id l) -> Recipe.id r = id ->
  find (fun r => Recipe.id r =? id) (l ++ [r]) = Some r.
Proof.
  intros Hnot Hid. induction l as [|x l IH]; simpl.
  - subst id. now rewrite String.eqb_refl.
  - destruct (String.eqb_spec (Recipe.id x) id) as [E|_].
    + elim Hnot. now left.
    + apply IH. intros Hin. apply Hnot. now right.
Qed.

Lemma find_id_after_delete id id' (l : list Recipe.t) :
  id' <> id ->
  find (fun r => Recipe.id r =? id')
       (filter (fun r => negb (Recipe.id r =? id)) l)
  = find (fun r => Recipe.id r =? id') l.
Proof.
  intros Hne. induction l as [|x l IH]; simpl; [reflexivity|].
  destruct (String.eqb_spec (Recipe.id x) id) as [E|N]; simpl.
  - destruct (String.eqb_spec (Recipe.id x) id') as [E'|_]; [congruence|exact IH].
  - destruct (Recipe.id x =? id'); [reflexivity|exact IH].
Qed.

Lemma truthy_nonempty (s : string) : truthy s = true <-> s <> "".
Proof. destruct s; simpl; split; congruence. Qed.

(** X1.  [getSelectedRecipe] returns a recipe only when it carries the
    selected id, and then it is the first recipe of the collection with that
    id.  It returns nothing exactly when the selection is null, is the empty
    string, or is the id of no recipe. *)
Theorem getSelectedRecipe_first_match_or_absent :
  forall state : RecipeStore,
    (forall r, getSelectedRecipe state = Some r ->
       selectedRecipeId state = Some (Recipe.id r)
       /\ exists before after,
            recipes state = (before ++ r :: after)%list
            /\ ~ In (Recipe.id r) (map Recipe.id before))
    /\ (getSelectedRecipe state = None <->
        selectedRecipeId state = None
        \/ selectedRecipeId state = Some ""
        \/ exists sel, selectedRecipeId state = Some sel
                       /\ ~ In sel (recipe_ids state)).
Proof.
  intros state. unfold getSelectedRecipe, recipe_ids.
  destruct (selectedRecipeId state) as [sel|].
  - destruct sel as [|c sel]; simpl.
    + split; [discriminate|]. split; auto.
    + split.
      * intros r H. apply find_id_first in H as (Hid & Hsplit).
        rewrite Hid. split; [reflexivity|exact Hsplit].
      * rewrite find_id_none. split.
        -- intros H. right. right. eauto.
        -- intros [H|[H|(s & [= <-] & H)]]; [discriminate|discriminate|exact H].
  - split; [discriminate|]. split; auto.
Qed.

Lemma getSelectedRecipe_first_match_or_absent_witness :
  selectedRecipeId two_recipes = Some (Recipe.id beef_stew)
  /\ getSelectedRecipe (selectRecipe (Some "r-9") two_recipes) = None.
Proof.
  split.
  - apply (proj1 (getSelectedRecipe_first_match_or_absent two_recipes) beef_stew).
    reflexivity.
  - apply (proj2 (getSelectedRecipe_first_match_or_absent
                    (selectRecipe (Some "r-9") two_recipes))).
    right. right. exists "r-9". split; [reflexivity|].
    simpl. intros [H|[H|[]]]; discriminate H.
Defined.

(** X2.  After [createRecipe] with an identifier that is not empty and that
    no recipe carries, the selected recipe is the recipe just created, and
    the detail page's lookup of that identifier finds it too. *)
Theorem createRecipe_then_selected_is_new :
  forall (uuid : string) (now : Date) (recipeData : Recipe.data)
         (state : RecipeStore),
    uuid <> "" ->
    ~ In uuid (recipe_ids state) ->
    getSelectedRecipe (createRecipe uuid now recipeData state)
      = Some (Recipe.create uuid now recipeData)
    /\ recipeById uuid (createRecipe uuid now recipeData state)
      = Some (Recipe.create uuid now recipeData).
Proof.
  intros uuid now recipeData state Hne Hfresh.
  unfold getSelectedRecipe, recipeById, createRecipe; simpl.
  apply truthy_nonempty in Hne. rewrite Hne.
  split; now apply find_id_app_fresh.
Qed.

Lemma createRecipe_then_selected_is_new_witness :
  getSelectedRecipe two_recipes = Some beef_stew
  /\ recipeById "r-2" two_recipes = Some beef_stew.
Proof.
  apply (createRecipe_then_selected_is_new
           "r-2" 200 beef_stew_data
           (createRecipe "r-1" 100 apple_pie_data initialState)).
  - discriminate.
  - simpl. intros [H|[]]. discriminate H.
Defined.

(** X3.  After [deleteRecipe id] the lookup of [id] finds nothing, and the
    lookup of any other id finds what it found before; the selected recipe
    is absent when the selection was [id] and is the same recipe as before
    otherwise. *)
Theorem deleteRecipe_then_lookups :
  forall (id : string) (state : RecipeStore),
    recipeById id (deleteRecipe id state) = None
    /\ (forall id', id' <> id ->
          recipeById id' (deleteRecipe id state) = recipeById id' state)
    /\ (selectedRecipeId state = Some id ->
          getSelectedRecipe (deleteRecipe id state) = None)
    /\ (selectedRecipeId state <> Some id ->
          getSelectedRecipe (deleteRecipe id state) = getSelectedRecipe state).
Proof.
  intros id state. unfold recipeById, getSelectedRecipe, deleteRecipe; simpl.
  split; [|split; [|split]].
  - apply find_id_none. intros Hin. apply in_map_iff in Hin as (r & Hid & Hr).
    apply filter_In in Hr as [_ Hr]. apply negb_true_iff in Hr.
    apply String.eqb_neq in Hr. contradiction.
  - intros id' Hne. now apply find_id_after_delete.
  - intros ->. now rewrite String.eqb_refl.
  - intros Hsel. destruct (selectedRecipeId state) as [sel|]; [|reflexivity].
    destruct (String.eqb_spec sel id) as [->|Hne]; [now elim Hsel|].
    destruct (truthy sel); [now apply find_id_after_delete|reflexivity].
Qed.

Lemma deleteRecipe_then_lookups_witness :
  getSelectedRecipe (deleteRecipe "r-2" two_recipes) = None
  /\ getSelectedRecipe (deleteRecipe "r-1" two_recipes) = Some beef_stew
  /\ recipeById "r-2" (deleteRecipe "r-1" two_recipes) = Some beef_stew.
Proof.
  destruct (deleteRecipe_then_lookups "r-2" two_recipes) as (_ & _ & Hsel & _).
  destruct (deleteRecipe_then_lookups "r-1" two_recipes) as (_ & Hby & _ & Hkeep).
  split; [apply Hsel; reflexivity|]. split.
  - rewrite Hkeep; [reflexivity|discriminate].
  - rewrite Hby; [reflexivity|discriminate].
Defined.

(** ** Deleting twice, and deleting what was just created *)

Lemma filter_idem {A : Type} (p : A -> bool) (l : list A) :
  filter p (filter p l) = filter p l.
Proof.
  apply filter_keeps_all. intros x Hin. now apply filter_In in Hin.
Qed.

(** X4.  [deleteRecipe] is idempotent: deleting the same id a second time
    changes nothing. *)
Theorem deleteRecipe_idempotent :
  forall (id : string) (state : RecipeStore),
    deleteRecipe id (deleteRecipe id state) = deleteRecipe id state.
Proof.
  intros id state. unfold deleteRecipe; simpl.
  rewrite filter_idem. f_equal.
  destruct (selectedRecipeId state) as [sel|]; [|reflexivity].
  destruct (String.eqb_spec sel id) as [_|N]; [reflexivity|].
  apply String.eqb_neq in N. now rewrite N.
Qed.

(** X5.  Deleting a recipe right after it was created, under an identifier
    no other recipe carries, gives back the collection as it was; the
    selection is then null and [isCreating] is false, and the other fields
    are those before the creation. *)
Theorem createRecipe_then_deleteRecipe :
  forall (uuid : string) (now : Date) (recipeData : Recipe.data)
         (state : RecipeStore),
    ~ In uuid (recipe_ids state) ->
    deleteRecipe uuid (createRecipe uuid now recipeData state)
    = mkStore (recipes state) None (isEditing state) false
              (searchTerm state) (filterCategory state) (isLoading state).
Proof.
  intros uuid now recipeData state Hfresh.
  unfold deleteRecipe, createRecipe; simpl.
  rewrite String.eqb_refl, filter_app; simpl. rewrite String.eqb_refl; simpl.
  rewrite delete_absent_recipes by exact Hfresh.
  now rewrite app_nil_r.
Qed.

Lemma createRecipe_then_deleteRecipe_witness :
  recipes (deleteRecipe "r-2" two_recipes) = [apple_pie]
  /\ selectedRecipeId (deleteRecipe "r-2" two_recipes) = None.
Proof.
  assert (Hfresh : ~ In "r-2" (recipe_ids
                     (createRecipe "r-1" 100 apple_pie_data initialState))).
  { simpl. intros [H|[]]. discriminate H. }
  pose proof (createRecipe_then_deleteRecipe
                "r-2" 200 beef_stew_data
                (createRecipe "r-1" 100 apple_pie_data initialState) Hfresh) as H.
  split.
  - exact (f_equal recipes H).
  - exact (f_equal selectedRecipeId H).
Defined.

(** ** Recipe ids stay pairwise distinct *)

Lemma NoDup_snoc {A : Type} (l : list A) (x : A) :
  NoDup l -> ~ In x l -> NoDup (l ++ [x]).
Proof.
  induction l as [|y l IH]; simpl; intros Hnd Hnot.
  - constructor; [tauto|constructor].
  - inversion Hnd as [|? ? Hy Hl]; subst. constructor.
    + intros Hin. apply in_app_or in Hin as [Hin|[->|[]]]; tauto.
    + apply IH; tauto.
Qed.

Lemma NoDup_ids_filter (p : Recipe.t -> bool) (l : list Recipe.t) :
  NoDup (map Recipe.id l) -> NoDup (map Recipe.id (filter p l)).
Proof.
  induction l as [|r l IH]; simpl; intros Hnd; [constructor|].
  inversion Hnd as [|? ? Hr Hl]; subst.
  destruct (p r); simpl; [|now apply IH].
  constructor; [|now apply IH].
  intros Hin. apply Hr. apply in_map_iff in Hin as (x & Hx & Hin).
  apply filter_In in Hin as [Hin _]. rewrite <- Hx. now apply in_map.
Qed.

Lemma step_keeps_ids_distinct (c : Call) (state : RecipeStore) :
  NoDup (recipe_ids state) ->
  keeps_ids_distinct c state ->
  NoDup (recipe_ids (step c state)).
Proof.
  destruct c as [uuid now a]. unfold keeps_ids_distinct, step, recipe_ids; simpl.
  intros Hnd Hkeep.
  destruct a; simpl;
    try solve [rewrite map_matching_ids;
               [exact Hnd | intros r; destruct r; simpl; auto]];
    try exact Hnd.
  - (* createRecipe *)
    rewrite map_app. simpl. now apply NoDup_snoc.
  - (* updateRecipe *)
    rewrite map_matching_ids; [exact Hnd|].
    intros r Hr. destruct r; simpl in *.
    destruct (Recipe.p_id recipeData); simpl; congruence.
  - (* deleteRecipe *)
    now apply NoDup_ids_filter.
Qed.

Lemma run_keeps_ids_distinct (cs : list Call) :
  forall state,
    NoDup (recipe_ids state) -> ids_safe cs state ->
    NoDup (recipe_ids (run cs state)).
Proof.
  induction cs as [|c cs IH]; simpl; intros state Hnd Hsafe; [exact Hnd|].
  destruct Hsafe as [Hc Hrest].
  apply IH; [now apply step_keeps_ids_distinct|exact Hrest].
Qed.

(** X6.  Starting from the initial state, as long as every [createRecipe]
    receives an identifier that no recipe of the collection carries and no
    [updateRecipe] partial changes a recipe's id, the ids of the collection
    are pairwise distinct. *)
Theorem recipe_ids_stay_distinct :
  forall cs : list Call,
    ids_safe cs initialState ->
    NoDup (recipe_ids (run cs initialState)).
Proof.
  intros cs Hsafe. apply run_keeps_ids_distinct; [constructor|exact Hsafe].
Qed.

Lemma recipe_ids_stay_distinct_witness :
  NoDup (recipe_ids
           (run [mkCall "r-1" 100 (CreateRecipe apple_pie_data);
                 mkCall "r-2" 200 (CreateRecipe beef_stew_data);
                 mkCall "u-3" 300 (UpdateRecipe "r-1" stamp_999);
                 mkCall "u-4" 400 (DeleteRecipe "r-2");
                 mkCall "r-2" 500 (CreateRecipe beef_stew_data)] initialState)).
Proof.
  apply recipe_ids_stay_distinct. simpl.
  repeat split; try tauto;
    intros H; repeat (destruct H as [H|H]; [discriminate H|]); exact H.
Defined.

(** Without that condition two recipes can share an id. *)
Lemma colliding_uuid_duplicates_id :
  ~ NoDup (recipe_ids
             (run [mkCall "r-1" 100 (CreateRecipe apple_pie_data);
                   mkCall "r-1" 200 (CreateRecipe beef_stew_data)] initialState)).
Proof.
  simpl. intros H. inversion H as [|? ? Hnot _]; subst. apply Hnot. now left.
Qed.

(** ** How many recipes there are *)

Lemma filter_length_le {A : Type} (p : A -> bool) (l : list A) :
  (List.length (filter p l) <= List.length l)%nat.
Proof.
  induction l as [|x l IH]; simpl; [lia|]. destruct (p x); simpl; lia.
Qed.

Lemma step_length (c : Call) (state : RecipeStore) :
  match call_action c with
  | CreateRecipe _ =>
      List.length (recipes (step c state)) = S (List.length (recipes state))
  | DeleteRecipe _ =>
      (List.length (recipes (step c state)) <= List.length (recipes state))%nat
  | _ => List.length (recipes (step c state)) = List.length (recipes state)
  end.
Proof.
  destruct c as [uuid now a]. unfold step; simpl.
  destruct a; simpl; try apply map_matching_length; try reflexivity.
  - rewrite length_app. simpl. lia.
  - apply filter_length_le.
Qed.

(** X7.  Only [createRecipe] adds a recipe and only [deleteRecipe] removes
    one: after any sequence of calls the collection has at most as many
    recipes as it had plus the number of [createRecipe] calls, and exactly
    that many when the sequence has no [deleteRecipe]. *)
Theorem recipe_count_after_calls :
  forall (cs : list Call) (state : RecipeStore),
    (List.length (recipes (run cs state))
     <= List.length (recipes state) + creations cs)%nat
    /\ (no_deletion cs = true ->
        List.length (recipes (run cs state))
        = (List.length (recipes state) + creations cs)%nat).
Proof.
  induction cs as [|c cs IH]; intros state; simpl.
  - split; [lia|intros _; lia].
  - destruct (IH (step c state)) as [Hle Heq].
    pose proof (step_length c state) as Hstep.
    destruct (call_action c); (split; [lia|]);
      try discriminate; intros Hnd; rewrite (Heq Hnd); lia.
Qed.

Lemma recipe_count_after_calls_witness :
  List.length
    (recipes (run [mkCall "u-1" 300 (ToggleFavorite "r-1");
                   mkCall "r-3" 400 (CreateRecipe apple_pie_data);
                   mkCall "u-2" 500 (SelectRecipe None)] two_recipes))
  = 3%nat.
Proof.
  rewrite (proj2 (recipe_count_after_calls
                    [mkCall "u-1" 300 (ToggleFavorite "r-1");
                     mkCall "r-3" 400 (CreateRecipe apple_pie_data);
                     mkCall "u-2" 500 (SelectRecipe None)] two_recipes)).
  - reflexivity.
  - reflexivity.
Defined.

(** ** What the actions never write *)

(** X8.  The seven UI actions ([selectRecipe], [startEditing],
    [finishEditing], [startCreating], [cancelCreating], [setSearchTerm],
    [setFilterCategory]) leave the collection as it is, so they refresh no
    [dateModified]; and no action at all writes [isLoading], which is false
    in every state reached from the initial one. *)
Theorem ui_actions_keep_recipes_and_isLoading_stays_false :
  (forall (c : Call) (state : RecipeStore),
      is_ui_action (call_action c) = true ->
      recipes (step c state) = recipes state)
  /\ (forall cs : list Call, isLoading (run cs initialState) = false).
Proof.
  split.
  - intros [uuid now a] state. unfold step; simpl.
    destruct a; simpl; intros H; try discriminate; reflexivity.
  - assert (Hstep : forall c s, isLoading (step c s) = isLoading s).
    { intros [uuid now a] s. unfold step; simpl. destruct a; reflexivity. }
    assert (Hrun : forall cs s, isLoading (run cs s) = isLoading s).
    { induction cs as [|c cs IH]; intros s; simpl; [reflexivity|].
      now rewrite IH, Hstep. }
    intros cs. now rewrite Hrun.
Qed.

Lemma ui_actions_keep_recipes_and_isLoading_stays_false_witness :
  recipes (step (mkCall "u-1" 300 (SelectRecipe (Some "r-1"))) two_recipes)
  = [apple_pie; beef_stew].
Proof.
  rewrite (proj1 ui_actions_keep_recipes_and_isLoading_stays_false
             (mkCall "u-1" 300 (SelectRecipe (Some "r-1"))) two_recipes eq_refl).
  reflexivity.
Defined.

(** ** Adding and removing ingredients and instructions *)

(** X9.  [addIngredient] (resp. [addInstruction]) on a recipe with the given
    id appends exactly one ingredient (resp. instruction), which carries the
    generated identifier and the caller's data as given; the ones already
    there stay in place, unchanged: in particular [addInstruction] assigns
    and renumbers no [stepNumber].  The other list, the recipe's id and its
    [dateCreated] are unchanged. *)
Theorem add_sub_entity_appends_one :
  forall (uuid : string) (now : Date) (recipeId : string)
         (di : Ingredient.data) (dn : Instruction.data)
         (state : RecipeStore) (k : nat) (r : Recipe.t),
    nth_error (recipes state) k = Some r ->
    Recipe.id r = recipeId ->
    (exists r',
        nth_error (recipes (addIngredient uuid now recipeId di state)) k = Some r'
        /\ Recipe.ingredients r'
           = (Recipe.ingredients r ++ [Ingredient.create uuid di])%list
        /\ Ingredient.id (Ingredient.create uuid di) = uuid
        /\ Ingredient.name (Ingredient.create uuid di) = Ingredient.d_name di
        /\ Ingredient.amount (Ingredient.create uuid di) = Ingredient.d_amount di
        /\ Recipe.instructions r' = Recipe.instructions r
        /\ Recipe.id r' = Recipe.id r
        /\ Recipe.dateCreated r' = Recipe.dateCreated r)
    /\
    (exists r',
        nth_error (recipes (addInstruction uuid now recipeId dn state)) k = Some r'
        /\ Recipe.instructions r'
           = (Recipe.instructions r ++ [Instruction.create uuid dn])%list
        /\ Instruction.id (Instruction.create uuid dn) = uuid
        /\ Instruction.stepNumber (Instruction.create uuid dn)
           = Instruction.d_stepNumber dn
        /\ Instruction.text (Instruction.create uuid dn) = Instruction.d_text dn
        /\ Recipe.ingredients r' = Recipe.ingredients r
        /\ Recipe.id r' = Recipe.id r
        /\ Recipe.dateCreated r' = Recipe.dateCreated r).
Proof.
  intros uuid now recipeId di dn state k r Hk Hid.
  unfold addIngredient, addInstruction; simpl. split.
  - eexists. split; [apply (map_matching_hit _ _ _ _ _ Hk Hid)|].
    simpl. repeat split.
  - eexists. split; [apply (map_matching_hit _ _ _ _ _ Hk Hid)|].
    simpl. repeat split.
Qed.

Lemma add_sub_entity_appends_one_witness :
  exists r',
    nth_error (recipes (addIngredient "i-2" 300 "r-2"
                          (Ingredient.mkData "Beef" 1%float "kg" None)
                          two_recipes)) 1 = Some r'
    /\ Recipe.ingredients r'
       = [Ingredient.mk "i-2" "Beef" 1%float "kg" None].
Proof.
  destruct (add_sub_entity_appends_one
              "i-2" 300 "r-2" (Ingredient.mkData "Beef" 1%float "kg" None)
              (Instruction.mkData 1%float "Stir") two_recipes 1%nat beef_stew
              eq_refl eq_refl) as [(r' & Hk & Hing & _) _].
  exists r'. split; [exact Hk|exact Hing].
Defined.

Lemma filter_app_fresh_ingredient uuid (l : list Ingredient.t) (i : Ingredient.t) :
  ~ In uuid (map Ingredient.id l) -> Ingredient.id i = uuid ->
  filter (fun x => negb (Ingredient.id x =? uuid)) (l ++ [i]) = l.
Proof.
  intros Hnot Hid. rewrite filter_app; simpl. subst uuid.
  rewrite String.eqb_refl; simpl.
  rewrite ingredient_filter_absent by exact Hnot. apply app_nil_r.
Qed.

Lemma filter_app_fresh_instruction uuid (l : list Instruction.t) (i : Instruction.t) :
  ~ In uuid (map Instruction.id l) -> Instruction.id i = uuid ->
  filter (fun x => negb (Instruction.id x =? uuid)) (l ++ [i]) = l.
Proof.
  intros Hnot Hid. rewrite filter_app; simpl. subst uuid.
  rewrite String.eqb_refl; simpl.
  rewrite instruction_filter_absent by exact Hnot. apply app_nil_r.
Qed.

(** X10.  Removing the ingredient (resp. instruction) that was just added,
    under an identifier no ingredient (resp. instruction) of the recipe
    carried, gives back the state before the addition, with only
    [dateModified] of the recipe set to the time of the removal. *)
Theorem add_then_remove_sub_entity :
  forall (uuid : string) (t1 t2 : Date) (recipeId : string)
         (di : Ingredient.data) (dn : Instruction.data) (state : RecipeStore),
    ((forall r, In r (recipes state) -> Recipe.id r = recipeId ->
                ~ In uuid (map Ingredient.id (Recipe.ingredients r))) ->
     removeIngredient t2 recipeId uuid (addIngredient uuid t1 recipeId di state)
     = refresh_dateModified t2 recipeId state)
    /\
    ((forall r, In r (recipes state) -> Recipe.id r = recipeId ->
                ~ In uuid (map Instruction.id (Recipe.instructions r))) ->
     removeInstruction t2 recipeId uuid (addInstruction uuid t1 recipeId dn state)
     = refresh_dateModified t2 recipeId state).
Proof.
  intros uuid t1 t2 recipeId di dn state.
  unfold removeIngredient, addIngredient, removeInstruction, addInstruction,
    refresh_dateModified, set_recipes; simpl.
  split; intros Hfresh; f_equal;
    (rewrite map_matching_compose by (intros r; destruct r; auto));
    apply map_matching_ext_in; intros r Hin Hid;
    specialize (Hfresh r Hin Hid); destruct r; simpl in *.
  - now rewrite filter_app_fresh_ingredient.
  - now rewrite filter_app_fresh_instruction.
Qed.

Lemma add_then_remove_sub_entity_witness :
  recipes (removeIngredient 400 "r-1" "i-2"
             (addIngredient "i-2" 300 "r-1"
                (Ingredient.mkData "Sugar" 1%float "cup" None) two_recipes))
  = [Recipe.set_dateModified apple_pie 400; beef_stew].
Proof.
  rewrite (proj1 (add_then_remove_sub_entity
                    "i-2" 300 400 "r-1"
                    (Ingredient.mkData "Sugar" 1%float "cup" None)
                    (Instruction.mkData 1%float "Stir") two_recipes)).
  - reflexivity.
  - simpl. intros r [<-|[<-|[]]] E.
    + simpl. intros [H|[]]. discriminate H.
    + discriminate E.
Defined.

(** X11.  Removing is absorbing: a second [removeIngredient] (resp.
    [removeInstruction]) of the same id gives the state a single removal at
    the later time gives; and after a removal no ingredient (resp.
    instruction) of a recipe with the given recipe id carries the removed
    id. *)
Theorem remove_sub_entity_twice :
  forall (t1 t2 : Date) (recipeId subId : string) (state : RecipeStore),
    removeIngredient t2 recipeId subId (removeIngredient t1 recipeId subId state)
      = removeIngredient t2 recipeId subId state
    /\ removeInstruction t2 recipeId subId
         (removeInstruction t1 recipeId subId state)
      = removeInstruction t2 recipeId subId state
    /\ (forall r, In r (recipes (removeIngredient t1 recipeId subId state)) ->
                  Recipe.id r = recipeId ->
                  ~ In subId (map Ingredient.id (Recipe.ingredients r)))
    /\ (forall r, In r (recipes (removeInstruction t1 recipeId subId state)) ->
                  Recipe.id r = recipeId ->
                  ~ In subId (map Instruction.id (Recipe.instructions r))).
Proof.
  intros t1 t2 recipeId subId state.
  unfold removeIngredient, removeInstruction, set_recipes; simpl.
  split; [|split; [|split]].
  - f_equal. rewrite map_matching_compose by (intros r; destruct r; auto).
    apply map_matching_ext_in. intros r _ _. destruct r; simpl.
    now rewrite filter_idem.
  - f_equal. rewrite map_matching_compose by (intros r; destruct r; auto).
    apply map_matching_ext_in. intros r _ _. destruct r; simpl.
    now rewrite filter_idem.
  - intros r' Hin Hid Hsub. unfold map_matching in Hin.
    apply in_map_iff in Hin as (r & <- & _).
    destruct (String.eqb_spec (Recipe.id r) recipeId) as [E|N];
      [|contradiction].
    simpl in Hsub. apply in_map_iff in Hsub as (i & Hi & Hin).
    apply filter_In in Hin as [_ Hin]. apply negb_true_iff in Hin.
    apply String.eqb_neq in Hin. contradiction.
  - intros r' Hin Hid Hsub. unfold map_matching in Hin.
    apply in_map_iff in Hin as (r & <- & _).
    destruct (String.eqb_spec (Recipe.id r) recipeId) as [E|N];
      [|contradiction].
    simpl in Hsub. apply in_map_iff in Hsub as (i & Hi & Hin).
    apply filter_In in Hin as [_ Hin]. apply negb_true_iff in Hin.
    apply String.eqb_neq in Hin. contradiction.
Qed.

Lemma remove_sub_entity_twice_witness :
  ~ In "i-1" (map Ingredient.id
                (Recipe.ingredients
                   (Recipe.set_dateModified
                      (Recipe.set_ingredients apple_pie []) 300))).
Proof.
  destruct (remove_sub_entity_twice 300 400 "r-1" "i-1" two_recipes)
    as (_ & _ & Hgone & _).
  apply Hgone; [now left|reflexivity].
Defined.

(** ** Updating an ingredient or an instruction *)

(** X12.  In a recipe with the given recipe id, [updateIngredient] (resp.
    [updateInstruction]) keeps the number and the order of the ingredients
    (resp. instructions): the one at each position is the old one merged
    with the partial when its id is the given one, and is the old one itself
    otherwise.  The other list is unchanged. *)
Theorem update_sub_entity_in_place :
  forall (now : Date) (recipeId subId : string)
         (pi : Ingredient.partial) (pn : Instruction.partial)
         (state : RecipeStore) (k : nat) (r : Recipe.t),
    nth_error (recipes state) k = Some r ->
    Recipe.id r = recipeId ->
    (exists r',
        nth_error (recipes (updateIngredient now recipeId subId pi state)) k
          = Some r'
        /\ List.length (Recipe.ingredients r')
           = List.length (Recipe.ingredients r)
        /\ (forall j i, nth_error (Recipe.ingredients r) j = Some i ->
              nth_error (Recipe.ingredients r') j
              = Some (if Ingredient.id i =? subId
                      then Ingredient.merge i pi else i))
        /\ Recipe.instructions r' = Recipe.instructions r)
    /\
    (exists r',
        nth_error (recipes (updateInstruction now recipeId subId pn state)) k
          = Some r'
        /\ List.length (Recipe.instructions r')
           = List.length (Recipe.instructions r)
        /\ (forall j i, nth_error (Recipe.instructions r) j = Some i ->
              nth_error (Recipe.instructions r') j
              = Some (if Instruction.id i =? subId
                      then Instruction.merge i pn else i))
        /\ Recipe.ingredients r' = Recipe.ingredients r).
Proof.
  intros now recipeId subId pi pn state k r Hk Hid.
  unfold updateIngredient, updateInstruction; simpl. split.
  - eexists. split; [apply (map_matching_hit _ _ _ _ _ Hk Hid)|]. simpl.
    split; [apply length_map|]. split; [|reflexivity].
    intros j i Hj. now rewrite nth_error_map, Hj.
  - eexists. split; [apply (map_matching_hit _ _ _ _ _ Hk Hid)|]. simpl.
    split; [apply length_map|]. split; [|reflexivity].
    intros j i Hj. now rewrite nth_error_map, Hj.
Qed.

Lemma update_sub_entity_in_place_witness :
  exists r',
    nth_error (recipes (updateIngredient 300 "r-1" "i-1" rename_ingredient
                          two_recipes)) 0 = Some r'
    /\ nth_error (Recipe.ingredients r') 0
       = Some (Ingredient.mk "i-1" "Sugar" 2%float "cups" None).
Proof.
  destruct (update_sub_entity_in_place
              300 "r-1" "i-1" rename_ingredient reword_instruction
              two_recipes 0%nat apple_pie eq_refl eq_refl)
    as [(r' & Hk & _ & Hat & _) _].
  exists r'. split; [exact Hk|]. exact (Hat 0%nat flour eq_refl).
Defined.

(** ** Two updates in a row *)

Lemma spread_later {A : Type} (a : A) (x y : option A) :
  spread (spread a x) y = spread a (later x y).
Proof. destruct y; reflexivity. Qed.

Lemma merge_overlay (r : Recipe.t) (p1 p2 : Recipe.partial) (t1 t2 : Date) :
  Recipe.set_dateModified
    (Recipe.merge (Recipe.set_dateModified (Recipe.merge r p1) t1) p2) t2
  = Recipe.set_dateModified (Recipe.merge r (overlay p1 p2)) t2.
Proof.
  unfold Recipe.set_dateModified, Recipe.merge, overlay; simpl.
  now rewrite !spread_later.
Qed.

(** X13.  Two [updateRecipe] calls on the same id, the first of which does
    not rename the recipe, amount to one call at the later time with the two
    partials laid over each other, the later one winning key by key; and
    [updateRecipe] with a partial that has no key only refreshes
    [dateModified]. *)
Theorem updateRecipe_twice_is_overlay :
  forall (t1 t2 : Date) (id : string) (p1 p2 : Recipe.partial)
         (state : RecipeStore),
    (match Recipe.p_id p1 with Some id' => id' = id | None => True end ->
     updateRecipe t2 id p2 (updateRecipe t1 id p1 state)
     = updateRecipe t2 id (overlay p1 p2) state)
    /\ updateRecipe t2 id Recipe.no_change state
       = refresh_dateModified t2 id state.
Proof.
  intros t1 t2 id p1 p2 state.
  unfold updateRecipe, refresh_dateModified, set_recipes; simpl. split.
  - intros Hid. f_equal. rewrite map_matching_compose.
    + apply map_matching_ext_in. intros r _ _. apply merge_overlay.
    + intros r Hr. simpl. destruct (Recipe.p_id p1); simpl; congruence.
  - reflexivity.
Qed.

Lemma updateRecipe_twice_is_overlay_witness :
  updateRecipe 400 "r-1" created_500 (updateRecipe 300 "r-1" stamp_999 two_recipes)
  = updateRecipe 400 "r-1" (overlay stamp_999 created_500) two_recipes.
Proof.
  apply (updateRecipe_twice_is_overlay
           300 400 "r-1" stamp_999 created_500 two_recipes).
  exact I.
Defined.

(** With a renaming first partial the second call no longer finds the
    recipe. *)
Lemma updateRecipe_after_rename_misses :
  updateRecipe 400 "r-1" created_500
    (updateRecipe 300 "r-1" rename_to_r7 two_recipes)
  = updateRecipe 300 "r-1" rename_to_r7 two_recipes.
Proof. reflexivity. Qed.

(** ** More on the filtered list *)

Lemma filter_swap {A : Type} (p q : A -> bool) (l : list A) :
  filter (fun x => p x && q x) l = filter (fun x => q x && p x) l.
Proof. apply filter_ext. intros x. apply andb_comm. Qed.

(** X14.  The two filters of [getFilteredRecipes] can be applied one after
    the other in either order: the result is the category filter applied to
    what the search alone returns, and also the search filter applied to
    what the category alone returns.  So adding a filter never adds a recipe
    to the list. *)
Theorem getFilteredRecipes_filters_commute :
  forall (toLowerCase : string -> string) (state : RecipeStore),
    getFilteredRecipes toLowerCase state
      = filter (matches_category state)
               (getFilteredRecipes toLowerCase (setFilterCategory None state))
    /\ getFilteredRecipes toLowerCase state
      = filter (matches_search toLowerCase state)
               (getFilteredRecipes toLowerCase (setSearchTerm "" state))
    /\ (forall r, In r (getFilteredRecipes toLowerCase state) ->
          In r (getFilteredRecipes toLowerCase (setFilterCategory None state))
          /\ In r (getFilteredRecipes toLowerCase (setSearchTerm "" state))).
Proof.
  intros lower state.
  assert (H1 : getFilteredRecipes lower state
               = filter (matches_category state)
                   (getFilteredRecipes lower (setFilterCategory None state))).
  { rewrite !getFilteredRecipes_filter, filter_twice. simpl.
    apply filter_ext. intros r.
    unfold matches_search, matches_category; simpl.
    now rewrite andb_true_r. }
  assert (H2 : getFilteredRecipes lower state
               = filter (matches_search lower state)
                   (getFilteredRecipes lower (setSearchTerm "" state))).
  { rewrite !getFilteredRecipes_filter, filter_twice. simpl.
    apply filter_ext. intros r.
    unfold matches_search, matches_category; simpl. apply andb_comm. }
  split; [exact H1|]. split; [exact H2|].
  intros r Hin. split.
  - rewrite H1 in Hin. now apply filter_In in Hin.
  - rewrite H2 in Hin. now apply filter_In in Hin.
Qed.

(** X15.  The search is case-insensitive in the search term: two terms with
    the same lower-cased form, both empty or both not, select the same
    recipes. *)
Theorem getFilteredRecipes_search_ignores_case :
  forall (toLowerCase : string -> string) (term1 term2 : string)
         (state : RecipeStore),
    toLowerCase term1 = toLowerCase term2 ->
    (term1 = "" <-> term2 = "") ->
    getFilteredRecipes toLowerCase (setSearchTerm term1 state)
    = getFilteredRecipes toLowerCase (setSearchTerm term2 state).
Proof.
  intros lower term1 term2 state Hlow Hempty.
  unfold getFilteredRecipes; simpl. rewrite Hlow.
  replace (truthy term2) with (truthy term1); [reflexivity|].
  destruct term1, term2; simpl; try reflexivity.
  - destruct Hempty as [H _]. discriminate (H eq_refl).
  - destruct Hempty as [_ H]. discriminate (H eq_refl).
Qed.

Lemma getFilteredRecipes_search_ignores_case_witness :
  getFilteredRecipes toLowerCase_ascii (setSearchTerm "PiE" two_recipes)
  = getFilteredRecipes toLowerCase_ascii (setSearchTerm "pie" two_recipes).
Proof.
  apply (getFilteredRecipes_search_ignores_case
           toLowerCase_ascii "PiE" "pie" two_recipes).
  - reflexivity.
  - split; discriminate.
Defined.

(** X16.  RecipeSplash shows its clear-filters button exactly when
    [searchTerm || filterCategory] is truthy.  Whenever the button is hidden
    the filtered list is the whole collection; and after the button's
    handler ran, the button is hidden, the whole collection is listed, and
    the collection and the selection are what they were. *)
Theorem clear_filters_shows_whole_collection :
  forall (toLowerCase : string -> string) (state : RecipeStore),
    (filters_active state = false ->
     getFilteredRecipes toLowerCase state = recipes state)
    /\ filters_active (clearFilters state) = false
    /\ getFilteredRecipes toLowerCase (clearFilters state) = recipes state
    /\ recipes (clearFilters state) = recipes state
    /\ selectedRecipeId (clearFilters state) = selectedRecipeId state.
Proof.
  intros lower state. split; [|repeat split].
  unfold filters_active, getFilteredRecipes. intros H.
  apply orb_false_iff in H as [Hterm Hcat]. rewrite Hterm.
  destruct (filterCategory state) as [cat|]; [|reflexivity].
  now rewrite Hcat.
Qed.

Lemma clear_filters_shows_whole_collection_witness :
  getFilteredRecipes toLowerCase_ascii (setFilterCategory (Some "") two_recipes)
  = [apple_pie; beef_stew].
Proof.
  rewrite (proj1 (clear_filters_shows_whole_collection
                    toLowerCase_ascii
                    (setFilterCategory (Some "") two_recipes)) eq_refl).
  reflexivity.
Defined.

Lemma prefix_app (sub s : string) :
  prefix sub s = true <-> exists post, s = sub ++ post.
Proof.
  revert s. induction sub as [|a sub IH]; intros s.
  - split; [intros _; now exists s|intros _; now destruct s].
  - destruct s as [|b s]; simpl.
    + split; [discriminate|]. intros [post H]. discriminate H.
    + destruct (ascii_dec a b) as [->|N].
      * rewrite IH. split; intros [post H]; exists post; congruence.
      * split; [discriminate|]. intros [post H]. congruence.
Qed.

(** [includes] is the substring test. *)
Lemma includes_substring (s sub : string) :
  includes s sub = true <-> exists pre post, s = pre ++ sub ++ post.
Proof.
  induction s as [|c s IH].
  - cbn [includes]. rewrite orb_false_r, prefix_app. split.
    + intros [post H]. now exists "", post.
    + intros (pre & post & H). destruct pre; simpl in H; [now exists post|].
      discriminate H.
  - cbn [includes]. rewrite orb_true_iff, prefix_app, IH. split.
    + intros [[post H]|(pre & post & H)].
      * now exists "", post.
      * exists (String c pre), post. simpl. now rewrite H.
    + intros (pre & post & H). destruct pre as [|d pre]; simpl in H.
      * left. now exists post.
      * right. injection H as _ H. now exists pre, post.
Qed.

(** X17.  With a non-empty search term and no category filter, a recipe is
    listed exactly when it is in the collection and the lower-cased term
    occurs as a contiguous run of characters in its lower-cased title or in
    its lower-cased description. *)
Theorem getFilteredRecipes_search_is_substring_match :
  forall (toLowerCase : string -> string) (state : RecipeStore) (r : Recipe.t),
    searchTerm state <> "" ->
    filterCategory state = None ->
    (In r (getFilteredRecipes toLowerCase state) <->
     In r (recipes state)
     /\ ((exists pre post,
            toLowerCase (Recipe.title r)
            = pre ++ toLowerCase (searchTerm state) ++ post)
         \/ (exists pre post,
               toLowerCase (Recipe.description r)
               = pre ++ toLowerCase (searchTerm state) ++ post))).
Proof.
  intros lower state r Hterm Hcat.
  unfold getFilteredRecipes. rewrite Hcat.
  apply truthy_nonempty in Hterm. rewrite Hterm. cbv zeta.
  now rewrite filter_In, orb_true_iff, !includes_substring.
Qed.

Lemma getFilteredRecipes_search_is_substring_match_witness :
  In apple_pie
     (getFilteredRecipes toLowerCase_ascii (setSearchTerm "E P" two_recipes)).
Proof.
  apply (getFilteredRecipes_search_is_substring_match
           toLowerCase_ascii (setSearchTerm "E P" two_recipes) apple_pie).
  - discriminate.
  - reflexivity.
  - split; [now left|]. left. exists "appl", "ie". reflexivity.
Defined.

Lemma filter_map_ids (p q : Recipe.t -> bool) (g : Recipe.t -> Recipe.t)
    (l : list Recipe.t) :
  (forall r, q (g r) = p r) ->
  (forall r, Recipe.id (g r) = Recipe.id r) ->
  map Recipe.id (filter q (map g l)) = map Recipe.id (filter p l).
Proof.
  intros Hp Hid. induction l as [|r l IH]; simpl; [reflexivity|].
  rewrite Hp. destruct (p r); simpl; [rewrite Hid|]; now rewrite IH.
Qed.

(** X18.  Toggling the favourite flag and adding, updating or removing an
    ingredient or an instruction never changes which recipes the filtered
    list shows, nor their order: the list has the same ids before and after
    the call. *)
Theorem sub_entity_actions_keep_filtered_ids :
  forall (toLowerCase : string -> string) (c : Call) (state : RecipeStore),
    is_sub_entity_action (call_action c) = true ->
    map Recipe.id (getFilteredRecipes toLowerCase (step c state))
    = map Recipe.id (getFilteredRecipes toLowerCase state).
Proof.
  intros lower [uuid now a] state. unfold step; simpl. intros Ha.
  rewrite !getFilteredRecipes_filter.
  destruct a; try discriminate Ha; simpl; unfold map_matching;
    apply filter_map_ids; intros r;
    unfold matches_search, matches_category; simpl;
    destruct (Recipe.id r =? _); destruct r; reflexivity.
Qed.

Lemma sub_entity_actions_keep_filtered_ids_witness :
  map Recipe.id
    (getFilteredRecipes toLowerCase_ascii
       (step (mkCall "u-1" 300 (ToggleFavorite "r-1"))
             (setSearchTerm "pie" two_recipes)))
  = ["r-1"].
Proof.
  rewrite (sub_entity_actions_keep_filtered_ids
             toLowerCase_ascii (mkCall "u-1" 300 (ToggleFavorite "r-1"))
             (setSearchTerm "pie" two_recipes) eq_refl).
  reflexivity.
Defined.

(** ** The rows of the creation form *)

(** X19.  In the form, removing the row that was just added, under a
    temporary id no other row carries, gives back the rows as they were; the
    same holds for ingredient rows and for instruction rows. *)
Theorem form_add_then_remove_row :
  forall (uuid : string) (ingredients : list FormIngredient.t)
         (instructions : list FormInstruction.t),
    (~ In uuid (map FormIngredient.id ingredients) ->
     handleRemoveIngredient uuid (handleAddIngredient uuid ingredients)
     = ingredients)
    /\ (~ In uuid (map FormInstruction.id instructions) ->
        handleRemoveInstruction uuid (handleAddInstruction uuid instructions)
        = instructions).
Proof.
  intros uuid ingredients instructions.
  unfold handleRemoveIngredient, handleAddIngredient,
    handleRemoveInstruction, handleAddInstruction.
  split; intros Hfresh; rewrite filter_app; simpl;
    rewrite String.eqb_refl; simpl; rewrite app_nil_r;
    apply filter_keeps_all; intros x Hin.
  - destruct (String.eqb_spec (FormIngredient.id x) uuid) as [E|_];
      [id_is_absent Hfresh E|reflexivity].
  - destruct (String.eqb_spec (FormInstruction.id x) uuid) as [E|_];
      [id_is_absent Hfresh E|reflexivity].
Qed.

Lemma form_add_then_remove_row_witness :
  handleRemoveInstruction "t-9"
    (handleAddInstruction "t-9" (f_instructions sample_form))
  = f_instructions sample_form.
Proof.
  apply (proj2 (form_add_then_remove_row
                  "t-9" (f_ingredients sample_form) (f_instructions sample_form))).
  simpl. intros [H|[H|[]]]; discriminate H.
Defined.

(** X20.  Editing a row of the form keeps the number of rows, their order
    and their temporary ids (for [handleIngredientChange], when the edited
    field is not the id itself); [handleInstructionChange] puts the new text
    in the rows with the given id and leaves the text of the others. *)
Theorem form_edit_keeps_rows :
  forall (id value : string) (e : FormIngredient.edit)
         (ingredients : list FormIngredient.t)
         (instructions : list FormInstruction.t),
    map FormInstruction.id (handleInstructionChange id value instructions)
      = map FormInstruction.id instructions
    /\ (forall k inst, nth_error instructions k = Some inst ->
          exists inst',
            nth_error (handleInstructionChange id value instructions) k
              = Some inst'
            /\ FormInstruction.text inst'
               = if FormInstruction.id inst =? id
                 then value else FormInstruction.text inst)
    /\ List.length (handleIngredientChange id e ingredients)
       = List.length ingredients
    /\ ((forall v, e <> FormIngredient.SetId v) ->
        map FormIngredient.id (handleIngredientChange id e ingredients)
        = map FormIngredient.id ingredients).
Proof.
  intros id value e ingredients instructions.
  unfold handleInstructionChange, handleIngredientChange.
  split; [|split; [|split]].
  - rewrite map_map. apply map_ext. intros inst.
    destruct (FormInstruction.id inst =? id); reflexivity.
  - intros k inst Hk. rewrite nth_error_map, Hk. simpl.
    eexists. split; [reflexivity|].
    destruct (FormInstruction.id inst =? id); reflexivity.
  - apply length_map.
  - intros Hnot. rewrite map_map. apply map_ext. intros ing.
    destruct (FormIngredient.id ing =? id); [|reflexivity].
    destruct e; try reflexivity. now elim (Hnot value0).
Qed.

Lemma form_edit_keeps_rows_witness :
  map FormIngredient.id
    (handleIngredientChange "t-1" (FormIngredient.SetName "Sugar")
       (f_ingredients sample_form))
  = ["t-1"].
Proof.
  destruct (form_edit_keeps_rows
              "t-1" "x" (FormIngredient.SetName "Sugar")
              (f_ingredients sample_form) (f_instructions sample_form))
    as (_ & _ & _ & Hids).
  rewrite Hids; [reflexivity|]. intros v. discriminate.
Defined.

(** ** Submitting the form *)

Lemma map_from_length {A B : Type} (f : nat -> A -> B) (l : list A) :
  forall i, List.length (map_from f i l) = List.length l.
Proof.
  induction l as [|x l IH]; intros i; simpl; [reflexivity|]. now rewrite IH.
Qed.

Lemma map_from_nth {A B : Type} (f : nat -> A -> B) (l : list A) :
  forall i k,
    nth_error (map_from f i l) k = option_map (f (i + k)%nat) (nth_error l k).
Proof.
  induction l as [|x l IH]; intros i k; simpl.
  - now destruct k.
  - destruct k as [|k]; simpl.
    + now rewrite Nat.add_0_r.
    + rewrite IH. now rewrite Nat.add_succ_r.
Qed.

Lemma map_from_seq {A B C : Type} (f : nat -> A -> B) (g : B -> C)
    (h : nat -> C) (l : list A) :
  (forall k x, g (f k x) = h k) ->
  forall i, map g (map_from f i l) = map h (seq i (List.length l)).
Proof.
  intros Hgf. induction l as [|x l IH]; intros i; simpl; [reflexivity|].
  now rewrite Hgf, IH.
Qed.

Lemma existsb_negb_false {A : Type} (p : A -> bool) (l : list A) :
  existsb (fun x => negb (p x)) l = false <-> Forall (fun x => p x = true) l.
Proof.
  induction l as [|x l IH]; simpl.
  - split; [constructor|reflexivity].
  - rewrite orb_false_iff, negb_false_iff, IH. split.
    + intros [Hx Hl]. now constructor.
    + intros H. now inversion H.
Qed.

Lemma length_zero_nil {A : Type} (l : list A) :
  (List.length l =? 0)%nat = false <-> l <> [].
Proof. destruct l; simpl; split; congruence. Qed.

Section SubmitFacts.
Variable trim : string -> string.
Variable gen : nat -> string.

Lemma rows_checked {A : Type} (f : A -> string) (l : list A) :
  (List.length l =? 0)%nat || existsb (fun x => negb (truthy (f x))) l = false
  <-> l <> [] /\ Forall (fun x => f x <> "") l.
Proof.
  rewrite orb_false_iff, length_zero_nil, existsb_negb_false.
  split; intros [Hne Hall]; (split; [exact Hne|]);
    revert Hall; apply Forall_impl; intros x.
  - apply (proj1 (truthy_nonempty (f x))).
  - apply (proj2 (truthy_nonempty (f x))).
Qed.

Lemma handleSubmit_accepts (form : FormState) :
  (exists recipeData, handleSubmit trim gen form = Submitted recipeData)
  <-> form_valid trim form.
Proof.
  unfold handleSubmit, form_valid.
  pose proof (truthy_nonempty (trim (f_title form))) as Htitle.
  pose proof (rows_checked (fun i => trim (FormIngredient.name i))
                (f_ingredients form)) as Hing.
  pose proof (rows_checked (fun i => trim (FormInstruction.text i))
                (f_instructions form)) as Hins.
  simpl in Hing, Hins.
  destruct (truthy (trim (f_title form))); simpl.
  - destruct (_ || _).
    + split; [intros [d H]; discriminate H|].
      intros (_ & H1 & H2 & _). destruct Hing as [_ Hing].
      discriminate (Hing (conj H1 H2)).
    + destruct (_ || _).
      * split; [intros [d H]; discriminate H|].
        intros (_ & _ & _ & H1 & H2). destruct Hins as [_ Hins].
        discriminate (Hins (conj H1 H2)).
      * split; [|intros _; eexists; reflexivity].
        intros _. split; [now apply Htitle|].
        destruct Hing as [[H1 H2] _]; [reflexivity|].
        destruct Hins as [[H3 H4] _]; [reflexivity|]. tauto.
  - split; [intros [d H]; discriminate H|].
    intros (H & _). apply Htitle in H. discriminate H.
Qed.
End SubmitFacts.

(** Reads an accepted submission: the three checks passed and the recipe
    data is the record [handleSubmit] builds. *)
Ltac read_submitted H :=
  unfold handleSubmit in H;
  repeat match type of H with
         | (if ?c then _ else _) = _ => destruct c eqn:?; [discriminate H|]
         end;
  injection H as H; subst.

Lemma number_or_not_falsy (v : option number) (d : number) :
  falsy_number d = false -> falsy_number (number_or v d) = false.
Proof.
  intros Hd. unfold number_or.
  destruct (falsy_number (match v with Some n => n | None => 0%float end))
    eqn:E; [exact Hd|exact E].
Qed.

Lemma number_or_zero_not_nan (v : option number) :
  PrimFloat.is_nan (number_or v 0%float) = false.
Proof.
  unfold number_or.
  destruct (falsy_number (match v with Some n => n | None => 0%float end))
    eqn:E; [reflexivity|].
  unfold falsy_number in E. now apply orb_false_iff in E.
Qed.

Lemma string_or_nonempty (s d : string) : d <> "" -> string_or s d <> "".
Proof.
  intros Hd. unfold string_or. destruct (truthy s) eqn:E; [|exact Hd].
  now apply truthy_nonempty.
Qed.

Lemma nonempty_length {A B : Type} (l : list A) (l' : list B) :
  List.length l' = List.length l -> l <> [] -> l' <> [].
Proof. destruct l, l'; simpl; congruence. Qed.

(** X21.  [handleSubmit] hands a recipe to [createRecipe] exactly when the
    trimmed title is not empty, there is at least one ingredient row and
    every ingredient row has a non-empty trimmed name, and there is at least
    one instruction row and every one has a non-empty trimmed text.
    Otherwise it alerts with one of its three messages, the title message
    whenever the trimmed title is empty. *)
Theorem handleSubmit_accepts_exactly_valid_forms :
  forall (trim : string -> string) (gen : nat -> string) (form : FormState),
    ((exists recipeData, handleSubmit trim gen form = Submitted recipeData)
     <-> form_valid trim form)
    /\ (forall msg, handleSubmit trim gen form = Rejected msg ->
          msg = "Please enter a recipe title."
          \/ msg = "Please add at least one ingredient with a name."
          \/ msg = "Please add at least one instruction step.")
    /\ (trim (f_title form) = "" ->
        handleSubmit trim gen form = Rejected "Please enter a recipe title.").
Proof.
  intros trim gen form. split; [apply handleSubmit_accepts|]. split.
  - unfold handleSubmit. intros msg H.
    destruct (negb (truthy _)); [injection H as <-; auto|].
    destruct (_ || _); [injection H as <-; auto|].
    destruct (_ || _); [injection H as <-; auto|discriminate H].
  - intros Hblank. unfold handleSubmit. now rewrite Hblank.
Qed.

Lemma handleSubmit_accepts_exactly_valid_forms_witness :
  (exists recipeData,
      handleSubmit trim_ascii gen_sample sample_form = Submitted recipeData)
  /\ handleSubmit trim_ascii gen_sample blank_title_form
     = Rejected "Please enter a recipe title.".
Proof.
  destruct (handleSubmit_accepts_exactly_valid_forms
              trim_ascii gen_sample sample_form) as (Hiff & _).
  destruct (handleSubmit_accepts_exactly_valid_forms
              trim_ascii gen_sample blank_title_form) as (_ & _ & Hblank).
  split.
  - apply Hiff. unfold form_valid. simpl.
    repeat split; try discriminate; repeat constructor; discriminate.
  - apply Hblank. reflexivity.
Defined.

(** X22.  The recipe data of an accepted form: the title is the trimmed
    title and is not empty; there are as many ingredients and instructions
    as rows, at least one of each; the instruction at position [k] has the
    trimmed, non-empty text of row [k] and step number [k + 1]; the
    ingredient at position [k] keeps the name and unit of row [k] as typed;
    no category is empty; [servings] is neither zero nor NaN and [prepTime]
    and [cookTime] are not NaN; the author is not empty; [isFavorite] is
    false and there is no nutrition block. *)
Theorem handleSubmit_recipe_data :
  forall (trim : string -> string) (gen : nat -> string) (form : FormState)
         (recipeData : Recipe.data),
    handleSubmit trim gen form = Submitted recipeData ->
    Recipe.d_title recipeData = trim (f_title form)
    /\ Recipe.d_title recipeData <> ""
    /\ List.length (Recipe.d_ingredients recipeData)
       = List.length (f_ingredients form)
    /\ Recipe.d_ingredients recipeData <> []
    /\ List.length (Recipe.d_instructions recipeData)
       = List.length (f_instructions form)
    /\ Recipe.d_instructions recipeData <> []
    /\ (forall k row, nth_error (f_instructions form) k = Some row ->
          exists inst,
            nth_error (Recipe.d_instructions recipeData) k = Some inst
            /\ Instruction.text inst = trim (FormInstruction.text row)
            /\ Instruction.text inst <> ""
            /\ Instruction.stepNumber inst = number_of_nat (S k))
    /\ (forall k row, nth_error (f_ingredients form) k = Some row ->
          exists ing,
            nth_error (Recipe.d_ingredients recipeData) k = Some ing
            /\ Ingredient.name ing = FormIngredient.name row
            /\ Ingredient.unit ing = FormIngredient.unit row
            /\ PrimFloat.is_nan (Ingredient.amount ing) = false)
    /\ Forall (fun cat => cat <> "") (Recipe.d_category recipeData)
    /\ falsy_number (Recipe.d_servings recipeData) = false
    /\ PrimFloat.is_nan (Recipe.d_prepTime recipeData) = false
    /\ PrimFloat.is_nan (Recipe.d_cookTime recipeData) = false
    /\ Recipe.d_author recipeData <> ""
    /\ Recipe.d_isFavorite recipeData = false
    /\ Recipe.d_nutrition recipeData = None.
Proof.
  intros trim gen form recipeData H.
  assert (Hvalid : form_valid trim form)
    by (apply (handleSubmit_accepts trim gen); eauto).
  destruct Hvalid as (Htitle & Hing & Hnames & Hins & Htexts).
  read_submitted H. simpl.
  split; [reflexivity|]. split; [exact Htitle|].
  split; [apply map_from_length|].
  split; [apply (nonempty_length (f_ingredients form));
          [apply map_from_length|exact Hing]|].
  split; [apply map_from_length|].
  split; [apply (nonempty_length (f_instructions form));
          [apply map_from_length|exact Hins]|].
  split.
  { intros k row Hk. rewrite map_from_nth, Hk. simpl.
    eexists. split; [reflexivity|]. simpl. repeat split.
    rewrite Forall_forall in Htexts. apply Htexts.
    now apply nth_error_In with k. }
  split.
  { intros k row Hk. rewrite map_from_nth, Hk. simpl.
    eexists. split; [reflexivity|]. simpl. repeat split.
    apply number_or_zero_not_nan. }
  split.
  { apply Forall_forall. intros cat Hin. apply filter_In in Hin as [_ Hin].
    now apply truthy_nonempty. }
  split; [now apply number_or_not_falsy|].
  split; [apply number_or_zero_not_nan|].
  split; [apply number_or_zero_not_nan|].
  split; [apply string_or_nonempty; discriminate|].
  split; reflexivity.
Qed.

Lemma handleSubmit_recipe_data_witness :
  exists recipeData,
    handleSubmit trim_ascii gen_sample sample_form = Submitted recipeData
    /\ Recipe.d_title recipeData = "Apple Pie"
    /\ Recipe.d_category recipeData = ["Dessert"; "Baking"]
    /\ Recipe.d_author recipeData = "Unknown Chef"
    /\ map Instruction.text (Recipe.d_instructions recipeData) = ["Mix"; "Bake"]
    /\ falsy_number (Recipe.d_servings recipeData) = false.
Proof.
  eexists. split; [reflexivity|].
  repeat (split; [reflexivity|]).
  apply (handleSubmit_recipe_data trim_ascii gen_sample sample_form).
  reflexivity.
Defined.

Lemma map_seq_offset {C : Type} (g : nat -> C) (o : nat) :
  forall m s, map (fun k => g (o + k)%nat) (seq s m) = map g (seq (o + s) m).
Proof.
  induction m as [|m IH]; intros s; simpl; [reflexivity|].
  f_equal. rewrite IH. now rewrite Nat.add_succ_r.
Qed.

Lemma NoDup_map_injective {A B : Type} (g : A -> B) (l : list A) :
  (forall a b, g a = g b -> a = b) -> NoDup l -> NoDup (map g l).
Proof.
  intros Hinj Hnd. induction Hnd as [|x l Hx Hl IH]; simpl; constructor.
  - intros Hin. apply in_map_iff in Hin as (y & Hy & Hin).
    apply Hinj in Hy. now subst y.
  - exact IH.
Qed.

Lemma submitted_ids (trim : string -> string) (gen : nat -> string)
    (form : FormState) (recipeData : Recipe.data) :
  handleSubmit trim gen form = Submitted recipeData ->
  (map Ingredient.id (Recipe.d_ingredients recipeData)
   ++ map Instruction.id (Recipe.d_instructions recipeData))%list
  = map gen (seq 0 (List.length (f_ingredients form)
                    + List.length (f_instructions form))%nat).
Proof.
  intros H. read_submitted H. simpl.
  rewrite (map_from_seq (submitIngredient trim gen) Ingredient.id gen)
    by reflexivity.
  rewrite (map_from_seq
             (submitInstruction trim gen (List.length (f_ingredients form)))
             Instruction.id
             (fun k => gen (List.length (f_ingredients form) + k)%nat))
    by reflexivity.
  rewrite map_seq_offset, Nat.add_0_r, <- map_app. f_equal.
  symmetry. apply seq_app.
Qed.

(** X23.  When the identifier source never repeats itself, the ingredients
    and instructions of an accepted form all carry different ids, and the
    identifier [createRecipe] then draws for the recipe differs from all of
    them; the temporary ids of the form's rows are not used. *)
Theorem handleSubmit_ids_distinct :
  forall (trim : string -> string) (gen : nat -> string) (form : FormState)
         (recipeData : Recipe.data),
    (forall a b, gen a = gen b -> a = b) ->
    handleSubmit trim gen form = Submitted recipeData ->
    NoDup (map Ingredient.id (Recipe.d_ingredients recipeData)
           ++ map Instruction.id (Recipe.d_instructions recipeData))%list
    /\ ~ In (gen (List.length (f_ingredients form)
                  + List.length (f_instructions form))%nat)
            (map Ingredient.id (Recipe.d_ingredients recipeData)
             ++ map Instruction.id (Recipe.d_instructions recipeData))%list
    /\ (forall k ing, nth_error (Recipe.d_ingredients recipeData) k = Some ing ->
                      Ingredient.id ing = gen k).
Proof.
  intros trim gen form recipeData Hinj H.
  rewrite (submitted_ids trim gen form recipeData H). split; [|split].
  - apply NoDup_map_injective; [exact Hinj|apply seq_NoDup].
  - intros Hin. apply in_map_iff in Hin as (k & Hk & Hin).
    apply Hinj in Hk. apply in_seq in Hin. lia.
  - read_submitted H. simpl. intros k ing Hk.
    rewrite map_from_nth in Hk.
    destruct (nth_error (f_ingredients form) k); simpl in Hk; [|discriminate].
    now injection Hk as <-.
Qed.

Lemma gen_sample_injective :
  forall a b, gen_sample a = gen_sample b -> a = b.
Proof.
  induction a as [|a IH]; destruct b as [|b]; simpl; intros H;
    try discriminate H; [reflexivity|].
  injection H as H. f_equal. now apply IH.
Qed.

Lemma handleSubmit_ids_distinct_witness :
  exists recipeData,
    handleSubmit trim_ascii gen_sample sample_form = Submitted recipeData
    /\ NoDup (map Ingredient.id (Recipe.d_ingredients recipeData)
              ++ map Instruction.id (Recipe.d_instructions recipeData))%list.
Proof.
  eexists. split; [reflexivity|].
  apply (handleSubmit_ids_distinct trim_ascii gen_sample sample_form _
           gen_sample_injective eq_refl).
Defined.

(** X24.  Submitting the form touches the store only when the form is
    valid.  Then exactly one recipe is appended and selected: it has the
    trimmed, non-empty title, at least one ingredient and one instruction,
    [isFavorite] false and both dates equal to the time of the call; and
    [isCreating] is false afterwards. *)
Theorem submitToStore_adds_one_valid_recipe :
  forall (trim : string -> string) (gen : nat -> string) (now : Date)
         (form : FormState) (state : RecipeStore),
    (~ form_valid trim form -> submitToStore trim gen now form state = state)
    /\ (form_valid trim form ->
        exists r,
          recipes (submitToStore trim gen now form state)
            = (recipes state ++ [r])%list
          /\ selectedRecipeId (submitToStore trim gen now form state)
             = Some (Recipe.id r)
          /\ isCreating (submitToStore trim gen now form state) = false
          /\ Recipe.id r = gen (List.length (f_ingredients form)
                                + List.length (f_instructions form))%nat
          /\ Recipe.title r = trim (f_title form)
          /\ Recipe.title r <> ""
          /\ Recipe.ingredients r <> []
          /\ Recipe.instructions r <> []
          /\ Recipe.isFavorite r = false
          /\ Recipe.dateCreated r = now
          /\ Recipe.dateModified r = now).
Proof.
  intros trim gen now form state. unfold submitToStore. split.
  - intros Hinvalid. destruct (handleSubmit trim gen form) eqn:H; [reflexivity|].
    elim Hinvalid. apply (handleSubmit_accepts trim gen). eauto.
  - intros Hvalid.
    destruct (proj2 (handleSubmit_accepts trim gen form) Hvalid) as [d H].
    rewrite H. destruct Hvalid as (Htitle & Hing & _ & Hins & _).
    read_submitted H. eexists. simpl.
    split; [reflexivity|]. simpl.
    repeat (split; [reflexivity|]).
    split; [exact Htitle|].
    split; [apply (nonempty_length (f_ingredients form));
            [apply map_from_length|exact Hing]|].
    split; [apply (nonempty_length (f_instructions form));
            [apply map_from_length|exact Hins]|].
    repeat split.
Qed.

Lemma submitToStore_adds_one_valid_recipe_witness :
  submitToStore trim_ascii gen_sample 300 blank_title_form two_recipes
  = two_recipes.
Proof.
  apply (proj1 (submitToStore_adds_one_valid_recipe
                  trim_ascii gen_sample 300 blank_title_form two_recipes)).
  intros (Htitle & _). apply Htitle. reflexivity.
Defined.

(** X25.  Provided trimming the empty string gives the empty string, the
    form cannot be submitted as it is first rendered, nor right after an
    empty ingredient row or an empty instruction row was added: the new row
    has no name (resp. no text) yet. *)
Theorem blank_rows_block_submission :
  forall (trim : string -> string) (gen : nat -> string) (uuid : string)
         (form : FormState) (recipeData : Recipe.data),
    trim "" = "" ->
    handleSubmit trim gen initialForm = Rejected "Please enter a recipe title."
    /\ handleSubmit trim gen
         (setIngredients (handleAddIngredient uuid (f_ingredients form)) form)
       <> Submitted recipeData
    /\ handleSubmit trim gen
         (setInstructions (handleAddInstruction uuid (f_instructions form)) form)
       <> Submitted recipeData.
Proof.
  intros trim gen uuid form recipeData Htrim. split; [|split].
  - unfold handleSubmit; simpl. now rewrite Htrim.
  - intros H.
    assert (Hvalid : form_valid trim
              (setIngredients (handleAddIngredient uuid (f_ingredients form)) form))
      by (apply (handleSubmit_accepts trim gen); eauto).
    destruct Hvalid as (_ & _ & Hnames & _). simpl in Hnames.
    unfold handleAddIngredient in Hnames. rewrite Forall_forall in Hnames.
    apply (Hnames (FormIngredient.mk uuid "" None "" (Some ""))).
    + apply in_or_app. right. now left.
    + exact Htrim.
  - intros H.
    assert (Hvalid : form_valid trim
              (setInstructions (handleAddInstruction uuid (f_instructions form))
                               form))
      by (apply (handleSubmit_accepts trim gen); eauto).
    destruct Hvalid as (_ & _ & _ & _ & Htexts). simpl in Htexts.
    unfold handleAddInstruction in Htexts. rewrite Forall_forall in Htexts.
    apply (Htexts (FormInstruction.mk uuid "")).
    + apply in_or_app. right. now left.
    + exact Htrim.
Qed.

Lemma blank_rows_block_submission_witness :
  handleSubmit trim_ascii gen_sample initialForm
  = Rejected "Please enter a recipe title.".
Proof.
  apply (blank_rows_block_submission
           trim_ascii gen_sample "t-9" sample_form apple_pie_data eq_refl).
Defined.
